(** * gwpy.types.array2d : the two-dimensional array with axis metadata

    A shallow embedding of [src/gwpy/types/array2d.py].

    Numbers.  Coordinates and samples are Python/numpy floats in the source;
    here they are exact integers ([Z]), so that [==] on coordinates is
    decidable equality and [origin + i * step] is exact.

    Units.  An astropy [Unit] is modelled by its name; [Unit('')] is the
    dimensionless unit.  Two units are convertible exactly when they are the
    same unit, and then the conversion is the identity; any other conversion
    raises [UnitConversionError].

    Objects.  The private attributes [_y0], [_dy], [_yindex] of an instance
    are optional fields of a record: an absent attribute (the
    [AttributeError] branch of the source's [try]) is [None].  Properties are
    computations in a state-and-exception monad over that record, because
    the getters cache what they compute. *)

From Stdlib Require Import ZArith List String Bool Lia.
Import ListNotations.
Open Scope string_scope.
Open Scope Z_scope.

(** ** Exceptions and the monad of methods *)

Inductive Exception : Type :=
| AttributeError (msg : string)
| IndexError (msg : string)
| ValueError (msg : string)
| UnitConversionError (msg : string).

(** A method run on an object in state [S]: the outcome and the state the
    object is left in (an exception keeps the mutations done before it). *)
Definition Py (S A : Type) : Type := S -> (Exception + A) * S.

Definition ret {S A} (a : A) : Py S A := fun s => (inr a, s).
Definition raise {S A} (e : Exception) : Py S A := fun s => (inl e, s).
Definition bind {S A B} (m : Py S A) (k : A -> Py S B) : Py S B :=
  fun s => match m s with
           | (inl e, s') => (inl e, s')
           | (inr a, s') => k a s'
           end.
Definition get {S} : Py S S := fun s => (inr s, s).
Definition modify {S} (f : S -> S) : Py S unit := fun s => (inr tt, f s).
Definition lift {S A} (r : Exception + A) : Py S A := fun s => (r, s).

Declare Scope py_scope.
Delimit Scope py_scope with py.
Notation "x <~ m ;; k" := (bind m (fun x => k))
  (at level 61, m at next level, right associativity) : py_scope.
Notation "m ;;; k" := (bind m (fun _ => k))
  (at level 61, right associativity) : py_scope.
Open Scope py_scope.

(** ** Units, quantities and indices (astropy and [gwpy.types.index]) *)

Definition Unit : Type := string.
Definition dimensionless : Unit := "".

Record Quantity : Type := mkQuantity { qvalue : Z; qunit : Unit }.

(** [Index] is a one-dimensional [Quantity] array. *)
Record Index : Type := mkIndex { ivalue : list Z; iunit : Unit }.

Definition unit_eqb (u v : Unit) : bool := String.eqb u v.

(** [q.to(unit)] *)
Definition to (q : Quantity) (u : Unit) : Exception + Quantity :=
  if unit_eqb (qunit q) u then inr (mkQuantity (qvalue q) u)
  else inl (UnitConversionError "units are not convertible").

(** [a != b] on scalar quantities: quantities of units that do not convert
    are unequal. *)
Definition q_ne (a b : Quantity) : bool :=
  negb (unit_eqb (qunit a) (qunit b) && (qvalue a =? qvalue b)).

(** [a + b]: the result carries the unit of [a]. *)
Definition q_add (a b : Quantity) : Exception + Quantity :=
  match to b (qunit a) with
  | inl e => inl e
  | inr b' => inr (mkQuantity (qvalue a + qvalue b') (qunit a))
  end.

(** [k * q] and [q * k] for a bare number [k]. *)
Definition q_scale (k : Z) (q : Quantity) : Quantity :=
  mkQuantity (k * qvalue q) (qunit q).

(** [numpy.arange(n)] *)
Definition arange (n : nat) : list Z := map Z.of_nat (seq 0 n).

(** [q + (numpy.arange(n) * d)], an array in the unit of [q]. *)
Definition q_add_arange (q : Quantity) (n : nat) (d : Quantity)
  : Exception + Index :=
  match to d (qunit q) with
  | inl e => inl e
  | inr d' => inr (mkIndex (map (fun i => qvalue q + i * qvalue d') (arange n))
                           (qunit q))
  end.

(** Python subscript [l[i]] on a sequence, negative [i] counting from the
    end. *)
Definition py_nth (l : list Z) (i : Z) : Exception + Z :=
  let n := Z.of_nat (List.length l) in
  let j := if i <? 0 then i + n else i in
  if (0 <=? j) && (j <? n) then inr (nth (Z.to_nat j) l 0)
  else inl (IndexError "index out of bounds").

(** [index[i]], a scalar quantity in the unit of the index. *)
Definition index_nth (ix : Index) (i : Z) : Exception + Quantity :=
  match py_nth (ivalue ix) i with
  | inl e => inl e
  | inr v => inr (mkQuantity v (iunit ix))
  end.

(** [numpy.diff] *)
Fixpoint diff (l : list Z) : list Z :=
  match l with
  | a :: (b :: _) as t => (b - a) :: diff t
  | _ => []
  end.

(** Modelled from the spec: [Index.regular] of [gwpy/types/index.py], which
    is not among the sources.  The spec's data model has the flag
    "true iff consecutive differences are constant": every second
    difference is zero. *)
Definition regular (ix : Index) : bool :=
  forallb (Z.eqb 0) (diff (diff (ivalue ix))).

(** ** The axis slots of an instance

    [_y0], [_dy] and [_yindex] of an [Array2D].  The x-axis slots [_x0],
    [_dx], [_xindex] that [Array2D] inherits from [Series] are a second
    record of the same type. *)

Record Slots : Type := mkSlots {
  _y0 : option Quantity;
  _dy : option Quantity;
  _yindex : option Index
}.

Definition set_y0 (v : option Quantity) (s : Slots) : Slots :=
  mkSlots v (_dy s) (_yindex s).
Definition set_dy (v : option Quantity) (s : Slots) : Slots :=
  mkSlots (_y0 s) v (_yindex s).
Definition set_yindex (v : option Index) (s : Slots) : Slots :=
  mkSlots (_y0 s) (_dy s) v.

Definition _default_yunit : Unit := dimensionless.

(** What a caller may pass where a scalar is expected. *)
Inductive PyVal : Type :=
| PyNone
| PyNum (z : Z)
| PyQuantity (q : Quantity).

(** What a caller may pass where an index is expected: a plain sequence
    without a [unit] attribute, or a [Quantity] array ([Index] included). *)
Inductive PyArr : Type :=
| PySeq (l : list Z)
| PyQuantityArr (ix : Index).

(** [Quantity(value, unit)] *)
Definition Quantity_ (value : PyVal) (u : Unit) : Exception + Quantity :=
  match value with
  | PyNone => inl (ValueError "None is not a number")
  | PyNum z => inr (mkQuantity z u)
  | PyQuantity q => to q u
  end.

(** *** yunit *)
Definition yunit (s : Slots) : Unit :=
  match _dy s with
  | Some d => qunit d
  | None => match _y0 s with
            | Some o => qunit o
            | None => _default_yunit
            end
  end.

(** *** deleters *)
Definition y0_del : Py Slots unit := modify (set_y0 None).
Definition dy_del : Py Slots unit := modify (set_dy None).
Definition yindex_del : Py Slots unit := modify (set_yindex None).

(** *** y0 *)
Definition y0_get : Py Slots Quantity :=
  s <~ get ;;
  match _y0 s with
  | Some o => ret o
  | None =>
      let o := mkQuantity 0 (yunit s) in
      modify (set_y0 (Some o)) ;;; ret o
  end.

Definition y0_set (value : PyVal) : Py Slots unit :=
  match value with
  | PyNone => y0_del
  | _ =>
      s <~ get ;;
      value <~ lift (match value with
                     | PyQuantity q => inr q
                     | _ => Quantity_ value (yunit s)
                     end) ;;
      (* if setting new y0, delete yindex *)
      match _y0 s with
      | None => yindex_del
      | Some y0 => if q_ne value y0 then yindex_del else ret tt
      end ;;;
      modify (set_y0 (Some value))
  end.

(** *** dy *)
Definition dy_get : Py Slots Quantity :=
  s <~ get ;;
  match _dy s with
  | Some d => ret d
  | None =>
      match _yindex s with
      | None =>
          let d := mkQuantity 1 (yunit s) in
          modify (set_dy (Some d)) ;;; ret d
      | Some ix =>
          if negb (regular ix) then
            raise (AttributeError
                     "This series has an irregular y-axis index, so 'dy' is not well defined")
          else
            b <~ lift (py_nth (ivalue ix) 1) ;;
            a <~ lift (py_nth (ivalue ix) 0) ;;
            let d := mkQuantity (b - a) (iunit ix) in
            modify (set_dy (Some d)) ;;; ret d
      end
  end.

Definition dy_set (value : PyVal) : Py Slots unit :=
  match value with
  | PyNone => dy_del
  | _ =>
      s <~ get ;;
      (* convert float to Quantity *)
      value <~ lift (match value with
                     | PyQuantity q => inr q
                     | _ => match Quantity_ value dimensionless with
                            | inl e => inl e
                            | inr q => to q (yunit s)
                            end
                     end) ;;
      (* if value is changing, delete yindex *)
      match _dy s with
      | None => yindex_del
      | Some dy => if q_ne value dy then yindex_del else ret tt
      end ;;;
      modify (set_dy (Some value))
  end.

(** *** yindex; [n] is [self.shape[1]] *)
Definition yindex_get (n : nat) : Py Slots Index :=
  s <~ get ;;
  match _yindex s with
  | Some ix => ret ix
  | None =>
      (* create regular index on-the-fly *)
      o <~ y0_get ;;
      d <~ dy_get ;;
      ix <~ lift (q_add_arange o n d) ;;
      modify (set_yindex (Some ix)) ;;; ret ix
  end.

Definition Index_ (index : PyArr) : Index :=
  match index with
  | PyQuantityArr ix => ix
  | PySeq l => mkIndex l _default_yunit
  end.

Definition yindex_set (index : option PyArr) : Py Slots unit :=
  match index with
  | None => yindex_del
  | Some index =>
      let index := Index_ index in
      o <~ lift (index_nth index 0) ;;
      y0_set (PyQuantity o) ;;;
      (if regular index then
         b <~ lift (py_nth (ivalue index) 1) ;;
         a <~ lift (py_nth (ivalue index) 0) ;;
         dy_set (PyQuantity (mkQuantity (b - a) (iunit index)))
       else dy_del) ;;;
      modify (set_yindex (Some index))
  end.

(** *** yspan: a [Segment] is a pair (low, high) *)
Definition Segment : Type := (Z * Z)%type.

(** [Segment(a, b)]: the constructor of the segments library puts the
    smaller bound first. *)
Definition Segment_ (a b : Z) : Segment :=
  if a <=? b then (a, b) else (b, a).

Definition yspan (n : nat) : Py Slots Segment :=
  s <~ get ;;
  match _yindex s with
  | None =>
      o <~ y0_get ;;
      s1 <~ get ;;
      o' <~ lift (to o (yunit s1)) ;;
      d <~ dy_get ;;
      s2 <~ get ;;
      d' <~ lift (to d (yunit s2)) ;;
      let y0 := qvalue o' in
      let dy := qvalue d' in
      ret (Segment_ y0 (y0 + Z.of_nat n * dy))
  | Some ix =>
      (* dy = self.yindex.value[-1] - self.yindex.value[-2], never read *)
      l1 <~ lift (py_nth (ivalue ix) (-1)) ;;
      l2 <~ lift (py_nth (ivalue ix) (-2)) ;;
      let dy := l1 - l2 in
      first <~ lift (py_nth (ivalue ix) 0) ;;
      last <~ lift (py_nth (ivalue ix) (-1)) ;;
      d <~ dy_get ;;
      ret (Segment_ first (last + qvalue d))
  end.

(** ** The x axis, inherited from [Series] *)

(** Modelled from the spec: the [x0], [dx] and [xindex] properties of
    [gwpy/types/series.py], which is not among the sources.  The spec (data
    model) has one axis descriptor per axis, "symmetric for row and column
    axes", and [_default_xunit] is [Unit('')] like [_default_yunit]: the
    x properties are the y properties run on the x slots. *)
Definition x0_get : Py Slots Quantity := y0_get.
Definition x0_set : PyVal -> Py Slots unit := y0_set.
Definition dx_get : Py Slots Quantity := dy_get.
Definition dx_set : PyVal -> Py Slots unit := dy_set.
Definition xindex_get : nat -> Py Slots Index := yindex_get.
Definition xindex_set : option PyArr -> Py Slots unit := yindex_set.

(** ** Instances *)

Record Array2D : Type := mkArray2D {
  value : list (list Z);      (* the rows of the buffer *)
  shape : nat * nat;
  unit_ : Unit;
  xslots : Slots;             (* _x0, _dx, _xindex *)
  yslots : Slots              (* _y0, _dy, _yindex *)
}.

Record Series : Type := mkSeries {
  svalue : list Z;
  sunit : Unit;
  sslots : Slots              (* _x0, _dx, _xindex *)
}.

(** Run a property of one axis on the instance. *)
Definition on_x {A} (m : Py Slots A) : Py Array2D A :=
  fun self => let (r, s) := m (xslots self) in
              (r, mkArray2D (value self) (shape self) (unit_ self) s (yslots self)).
Definition on_y {A} (m : Py Slots A) : Py Array2D A :=
  fun self => let (r, s) := m (yslots self) in
              (r, mkArray2D (value self) (shape self) (unit_ self) (xslots self) s).

(** Run a property of another object [new], held by value, inside a method
    of [self]: gives the slots [new] is left with. *)
Definition on_new {S} (m : Py Slots unit) (new : Slots) : Py S Slots :=
  fun self => match m new with
              | (inl e, _) => (inl e, self)
              | (inr _, new') => (inr new', self)
              end.

(** ** Array2D.__new__

    [super().__new__] builds the instance; [__new__] then runs on its
    y slots. *)
Definition __new__ (y0 dy : PyVal) (yindex : option PyArr) : Py Slots unit :=
  (* set new metadata *)
  let yunit :=
    match dy with
    | PyQuantity q => qunit q
    | _ => match y0 with
           | PyQuantity q => qunit q
           | _ => _default_yunit
           end
    end in
  (match dy with
   | PyNone => ret tt
   | _ => q <~ lift (Quantity_ dy yunit) ;; dy_set (PyQuantity q)
   end) ;;;
  (match y0 with
   | PyNone => ret tt
   | _ => q <~ lift (Quantity_ y0 yunit) ;; y0_set (PyQuantity q)
   end) ;;;
  (match yindex with
   | None => ret tt
   | Some _ => yindex_set yindex
   end).

(** ** Index expressions and numpy's basic indexing *)

(** One component of an index expression.  [KNpInt] is a numpy integer
    scalar whose type does not derive from the Python [int] (what
    [nonzero()] returns); numpy indexes with it as with an int, and refuses
    a float. *)
Inductive Key : Type :=
| KInt (i : Z)                           (* a Python int *)
| KFloat (f : Z)                         (* a Python float *)
| KNpInt (i : Z)                         (* a numpy integer scalar *)
| KSlice (start stop step : option Z).   (* slice(start, stop, step) *)

Inductive Item : Type :=
| Single (x : Key)
| Pair (x y : Key).

(** [isinstance(x, (float, int))] *)
Definition is_float_or_int (x : Key) : bool :=
  match x with
  | KInt _ | KFloat _ => true
  | _ => false
  end.

(** [slice.indices(n)]: the adjusted start, stop and step. *)
Definition slice_indices (n : Z) (start stop step : option Z)
  : Exception + (Z * Z * Z) :=
  let step := match step with Some k => k | None => 1 end in
  if step =? 0 then inl (ValueError "slice step cannot be zero")
  else
    let lower := if step <? 0 then -1 else 0 in
    let upper := if step <? 0 then n - 1 else n in
    let adjust v := if v <? 0 then Z.max (v + n) lower else Z.min v upper in
    let start := match start with
                 | Some v => adjust v
                 | None => if step <? 0 then upper else lower
                 end in
    let stop := match stop with
                | Some v => adjust v
                | None => if step <? 0 then lower else upper
                end in
    inr (start, stop, step).

(** The positions a slice selects in a sequence of length [n]. *)
Definition slice_positions (n : nat) (start stop step : option Z)
  : Exception + list nat :=
  match slice_indices (Z.of_nat n) start stop step with
  | inl e => inl e
  | inr (start, stop, step) =>
      let len := if 0 <? step
                 then (if start <? stop then (stop - start - 1) / step + 1 else 0)
                 else (if stop <? start then (start - stop - 1) / (- step) + 1 else 0) in
      inr (map (fun k => Z.to_nat (start + Z.of_nat k * step))
               (seq 0 (Z.to_nat len)))
  end.

Definition take {A} (d : A) (l : list A) (ps : list nat) : list A :=
  map (fun p => nth p l d) ps.

(** An integer position on an axis of length [n]. *)
Definition int_position (n : nat) (i : Z) : Exception + nat :=
  let j := if i <? 0 then i + Z.of_nat n else i in
  if (0 <=? j) && (j <? Z.of_nat n) then inr (Z.to_nat j)
  else inl (IndexError "index out of bounds").

(** What one key selects on an axis of length [n]: one position (the axis
    collapses) or a list of positions. *)
Inductive Selection : Type :=
| One (p : nat)
| Many (ps : list nat).

Definition select (n : nat) (k : Key) : Exception + Selection :=
  match k with
  | KInt i | KNpInt i =>
      match int_position n i with inl e => inl e | inr p => inr (One p) end
  | KFloat _ =>
      inl (IndexError "only integers, slices (`:`), ellipsis (`...`), numpy.newaxis (`None`) and integer or boolean arrays are valid indices")
  | KSlice start stop step =>
      match slice_positions n start stop step with
      | inl e => inl e
      | inr ps => inr (Many ps)
      end
  end.

Inductive ndarray : Type :=
| Nd0 (v : Z)
| Nd1 (l : list Z)
| Nd2 (rows : list (list Z)) (shp : nat * nat).

(** [ndarray.__getitem__] on the two-dimensional buffer. *)
Definition ndarray_getitem (rows : list (list Z)) (shp : nat * nat) (item : Item)
  : Exception + ndarray :=
  let (x, y) := match item with
                | Single x => (x, KSlice None None None)
                | Pair x y => (x, y)
                end in
  match select (fst shp) x with
  | inl e => inl e
  | inr sx =>
      match select (snd shp) y with
      | inl e => inl e
      | inr sy =>
          inr (match sx, sy with
               | One r, One c => Nd0 (nth c (nth r rows []) 0)
               | One r, Many cs => Nd1 (take 0 (nth r rows []) cs)
               | Many rs, One c => Nd1 (map (fun row => nth c row 0) (take [] rows rs))
               | Many rs, Many cs =>
                   Nd2 (map (fun row => take 0 row cs) (take [] rows rs))
                       (List.length rs, List.length cs)
               end)
      end
  end.

(** [index[y]] for a slice [y]. *)
Definition index_slice (ix : Index) (start stop step : option Z)
  : Exception + Index :=
  match slice_positions (List.length (ivalue ix)) start stop step with
  | inl e => inl e
  | inr ps => inr (mkIndex (take 0 (ivalue ix) ps) (iunit ix))
  end.

(** Truth value of [y.start] and [y.step]: [None] and [0] are false. *)
Definition truthy (v : option Z) : option Z :=
  match v with
  | Some k => if k =? 0 then None else Some k
  | None => None
  end.

(** ** Array2D.__getitem__ *)

(** The class a one-dimensional result is viewed as; both are [Series] in
    [Array2D] and are overridden by its subclasses. *)
Inductive Class : Type := _columnclass | _rowclass.

Inductive Result : Type :=
| RQuantity (q : Quantity)
| RSeries (cls : Class) (s : Series)
| RArray2D (a : Array2D).

Section Slicing.

(** [Series.__getitem__] and [__array_finalize__] are in files that are
    not among the sources: the slots (x, y) that the object returned by
    [super().__getitem__(item)] carries are taken as given, and
    [ndarray.view] carries them over. *)
Variable inherited : Array2D -> Item -> Slots * Slots.

(** Lines 142-148: unwrap a Series.  [newx] are the x slots of [new]. *)
Definition view_series (x : Key) (newx : Slots) : Py Array2D (Class * Slots) :=
  if is_float_or_int x then
    d <~ on_y dy_get ;;
    newx <~ on_new (dx_set (PyQuantity d)) newx ;;
    o <~ on_y y0_get ;;
    newx <~ on_new (x0_set (PyQuantity o)) newx ;;
    ret (_columnclass, newx)
  else
    ret (_rowclass, newx).

(** Lines 154-163: update the metadata of a one-dimensional [new] for the
    slice [y]. *)
Definition update_series (start stop step : option Z) (newx : Slots)
  : Py Array2D Slots :=
  self <~ get ;;
  match _yindex (xslots self) with      (* self._xindex *)
  | None =>
      newx <~ match truthy start with
              | Some k =>
                  o <~ on_x x0_get ;;
                  d <~ on_x dx_get ;;
                  v <~ lift (q_add o (q_scale k d)) ;;
                  on_new (x0_set (PyQuantity v)) newx
              | None => ret newx
              end ;;
      match truthy step with
      | Some k =>
          d <~ on_x dx_get ;;
          on_new (dx_set (PyQuantity (q_scale k d))) newx
      | None => ret newx
      end
  | Some _ =>
      ix <~ on_x (xindex_get (fst (shape self))) ;;
      ix' <~ lift (index_slice ix start stop step) ;;
      on_new (xindex_set (Some (PyQuantityArr ix'))) newx
  end.

(** Lines 164-173: slice the y axis of a two-dimensional [new], whose
    y slots are [newy] and whose [shape[1]] is [n]. *)
Definition update_array2d (start stop step : option Z) (n : nat) (newy : Slots)
  : Py Array2D Slots :=
  self <~ get ;;
  match _yindex (yslots self) with
  | None =>
      on_new
        ((match truthy start with
          | Some k =>
              o <~ y0_get ;;
              d <~ dy_get ;;
              v <~ lift (q_add o (q_scale k d)) ;;
              y0_set (PyQuantity v)
          | None => ret tt
          end) ;;;
         (match truthy step with
          | Some k =>
              d <~ dy_get ;;
              dy_set (PyQuantity (q_scale k d))
          | None => ret tt
          end)) newy
  | Some _ =>
      ix <~ on_y (yindex_get (snd (shape self))) ;;
      ix' <~ lift (index_slice ix start stop step) ;;
      on_new (yindex_set (Some (PyQuantityArr ix'))) newy
  end.

Definition __getitem__ (item : Item) : Py Array2D Result :=
  self <~ get ;;
  new <~ lift (ndarray_getitem (value self) (shape self) item) ;;
  let newx := fst (inherited self item) in
  let newy := snd (inherited self item) in
  (* unwrap item request *)
  let (x, y) := match item with
                | Pair x y => (x, Some y)
                | Single x => (x, None)
                end in
  match new with
  | Nd0 v =>
      (* extract a Quantity *)
      ret (RQuantity (mkQuantity v (unit_ self)))
  | Nd1 l =>
      cn <~ view_series x newx ;;
      let (cls, newx) := cn in
      newx <~ match y with
              | Some (KSlice start stop step) =>
                  update_series start stop step newx
              | _ => ret newx
              end ;;
      ret (RSeries cls (mkSeries l (unit_ self) newx))
  | Nd2 rows shp =>
      newy <~ match y with
              | Some (KSlice start stop step) =>
                  update_array2d start stop step (snd shp) newy
              | _ => ret newy
              end ;;
      ret (RArray2D (mkArray2D rows shp (unit_ self) newx newy))
  end.

(** ** Array2D.value_at *)

(** [(values == v).nonzero()[0][0]] *)
Fixpoint first_match (v : Z) (values : list Z) : option Z :=
  match values with
  | [] => None
  | w :: rest =>
      if w =? v then Some 0
      else match first_match v rest with
           | Some i => Some (i + 1)
           | None => None
           end
  end.

Definition value_at (x y : PyVal) : Py Array2D Result :=
  self <~ get ;;
  xi <~ on_x (xindex_get (fst (shape self))) ;;
  x <~ lift (Quantity_ x (iunit xi)) ;;
  yi <~ on_y (yindex_get (snd (shape self))) ;;
  y <~ lift (Quantity_ y (iunit yi)) ;;
  xi <~ on_x (xindex_get (fst (shape self))) ;;
  idx <~ match first_match (qvalue x) (ivalue xi) with
         | Some i => ret i
         | None => raise (IndexError "Value %r not found in array xindex")
         end ;;
  yi <~ on_y (yindex_get (snd (shape self))) ;;
  idy <~ match first_match (qvalue y) (ivalue yi) with
         | Some i => ret i
         | None => raise (IndexError "Value %r not found in array yindex")
         end ;;
  __getitem__ (Pair (KNpInt idx) (KNpInt idy)).

End Slicing.

(** ** Vocabulary of the statements *)

Definition message (e : Exception) : string :=
  match e with
  | AttributeError m | IndexError m | ValueError m | UnitConversionError m => m
  end.

(** [sub] occurs in [s]. *)
Definition occurs (sub s : string) : bool :=
  match String.index 0 sub s with
  | Some _ => true
  | None => false
  end.

(** The scalar a setter stores for a value that is not [None]: a quantity
    as it is, a bare number tagged with the unit [u]. *)
Definition stored (value : PyVal) (u : Unit) : Quantity :=
  match value with
  | PyQuantity q => q
  | PyNum z => mkQuantity z u
  | PyNone => mkQuantity 0 u
  end.

(** The coordinates [origin + i * step] for [i] in [0..n-1]. *)
Definition regular_coordinates (o d : Z) (n : nat) : list Z :=
  map (fun i => o + i * d) (arange n).

(** The regular state of an axis: origin and step are set, in one unit (the
    data model keeps the units of an axis consistent), and no index is
    cached. *)
Definition RegularState (s : Slots) (o d : Quantity) : Prop :=
  _y0 s = Some o /\ _dy s = Some d /\ _yindex s = None /\ qunit d = qunit o.

(** The round trip [setIndex(getIndex())] from the state [s] of an axis of
    extent [n] succeeds and leaves the origin [o], the step [d] and the
    index values of [getIndex()]. *)
Definition RoundTrip (n : nat) (s : Slots) (o d : Quantity) : Prop :=
  exists ix s1 s2,
    yindex_get n s = (inr ix, s1) /\
    yindex_set (Some (PyQuantityArr ix)) s1 = (inr tt, s2) /\
    _y0 s2 = Some o /\ _dy s2 = Some d /\ _yindex s2 = Some ix.

(** [__new__] accepts the scalars: [Quantity(y0, yunit)] converts, and
    [yunit] is the unit of [dy] when [dy] is a quantity. *)
Definition convertible (y0 dy : PyVal) : Prop :=
  match y0, dy with
  | PyQuantity a, PyQuantity b => qunit a = qunit b
  | _, _ => True
  end.

(** The slots an explicit index alone determines. *)
Definition explicit_slots (ix : Index) : Slots :=
  mkSlots (Some (mkQuantity (nth 0 (ivalue ix) 0) (iunit ix)))
          (if regular ix
           then Some (mkQuantity (nth 1 (ivalue ix) 0 - nth 0 (ivalue ix) 0) (iunit ix))
           else None)
          (Some ix).

(** Whether the cached index survives the assignment of [q] over the
    scalar [old]. *)
Definition survives (q : Quantity) (old : option Quantity) : bool :=
  match old with
  | Some o => negb (q_ne q o)
  | None => false
  end.

(** The instance refuses the index: the setter raises. *)
Definition Rejects (a : Array2D) (arr : PyArr) : Prop :=
  exists e a', on_y (yindex_set (Some arr)) a = (inl e, a').

Definition row_key (item : Item) : Key :=
  match item with
  | Single x | Pair x _ => x
  end.

(** *** Sample instances *)

Definition grid (rows cols : nat) : list (list Z) :=
  map (fun r => map (fun c => 10 * r + c) (arange cols)) (arange rows).

(** A 10x10 matrix: rows at 0, 2, 4, ... seconds, columns at 100, 105, ...
    hertz; neither index is cached. *)
Definition m10 : Array2D :=
  mkArray2D (grid 10 10) (10%nat, 10%nat) "strain"
    (mkSlots (Some (mkQuantity 0 "s")) (Some (mkQuantity 2 "s")) None)
    (mkSlots (Some (mkQuantity 100 "Hz")) (Some (mkQuantity 5 "Hz")) None).

(** A 5x4 matrix: rows at 0, 1, ..., columns at 10, 15, ... *)
Definition m54 : Array2D :=
  mkArray2D (grid 5 4) (5%nat, 4%nat) "strain"
    (mkSlots (Some (mkQuantity 0 "")) (Some (mkQuantity 1 "")) None)
    (mkSlots (Some (mkQuantity 10 "")) (Some (mkQuantity 5 "")) None).

(** A 2x3 matrix with nothing set on its axes. *)
Definition m23 : Array2D :=
  mkArray2D (grid 2 3) (2%nat, 3%nat) ""
    (mkSlots None None None) (mkSlots None None None).

(** The new object keeps the slots of the one it is cut from. *)
Definition inherit_all (a : Array2D) (_ : Item) : Slots * Slots :=
  (xslots a, yslots a).

(** An axis in hertz whose step is set. *)
Definition hertz_axis : Slots :=
  mkSlots None (Some (mkQuantity 1 "Hz")) None.

(** The single-sample axis at origin 0 with step 1. *)
Definition unit_axis : Slots :=
  mkSlots (Some (mkQuantity 0 "")) (Some (mkQuantity 1 "")) None.

(** An axis in hertz in the regular state: origin 100 Hz, step 5 Hz. *)
Definition hertz_axis_regular : Slots :=
  mkSlots (Some (mkQuantity 100 "Hz")) (Some (mkQuantity 5 "Hz")) None.

(** The axis [hertz_axis_regular] of extent 3 after its index has been
    read. *)
Definition cached_axis : Slots :=
  mkSlots (Some (mkQuantity 100 "Hz")) (Some (mkQuantity 5 "Hz"))
          (Some (mkIndex [100; 105; 110] "Hz")).

(** The x slots of the object viewed as [_columnclass], after
    [new.dx = d] and [new.x0 = o]. *)
Definition crossed (new : Slots) (o d : Quantity) : Slots :=
  snd (x0_set (PyQuantity o) (snd (dx_set (PyQuantity d) new))).

(** The slots [new] after the range [start:stop:step] has been applied
    with the origin [o] and the step [d]:
    [origin = o + start * d], [step = d * step]. *)
Definition ranged (new : Slots) (o d : Quantity) (start step : option Z) : Slots :=
  let new1 :=
    match truthy start with
    | Some k => snd (x0_set (PyQuantity
                               (mkQuantity (qvalue o + k * qvalue d) (qunit o))) new)
    | None => new
    end in
  match truthy step with
  | Some k => snd (dx_set (PyQuantity (mkQuantity (k * qvalue d) (qunit d))) new1)
  | None => new1
  end.

(** The matrix [m10] after both of its indices have been read. *)
Definition m10_cached : Array2D :=
  mkArray2D (grid 10 10) (10%nat, 10%nat) "strain"
    (mkSlots (Some (mkQuantity 0 "s")) (Some (mkQuantity 2 "s"))
             (Some (mkIndex (regular_coordinates 0 2 10) "s")))
    (mkSlots (Some (mkQuantity 100 "Hz")) (Some (mkQuantity 5 "Hz"))
             (Some (mkIndex (regular_coordinates 100 5 10) "Hz"))).

(** The column component of the index expression is a slice. *)
Definition column_is_slice (item : Item) : bool :=
  match item with
  | Pair _ (KSlice _ _ _) => true
  | _ => false
  end.

(** *** Vocabulary of the further properties *)

(** The first difference [index[1] - index[0]] of an index of two or more
    elements, in the unit of the index. *)
Definition first_difference (ix : Index) : Quantity :=
  mkQuantity (nth 1 (ivalue ix) 0 - nth 0 (ivalue ix) 0) (iunit ix).

(** The number a caller passed, without its unit. *)
Definition number_of (v : PyVal) : Z :=
  match v with
  | PyNum z => z
  | PyQuantity q => qvalue q
  | PyNone => 0
  end.

(** The unit [__new__] computes for the y axis from its arguments. *)
Definition new_yunit (y0 dy : PyVal) : Unit :=
  match dy with
  | PyQuantity q => qunit q
  | _ => match y0 with
         | PyQuantity q => qunit q
         | _ => _default_yunit
         end
  end.

(** The slots of an instance on which nothing has been set. *)
Definition fresh : Slots := mkSlots None None None.


(** A regular index given as a plain sequence. *)
Definition plain_regular : PyArr := PySeq [10; 15; 20].


(** The key [k] is the integer [i], as a Python int or as a numpy integer
    scalar. *)
Definition integer_key (k : Key) (i : Z) : Prop :=
  k = KInt i \/ k = KNpInt i.

(** The instance [self] with the given x and y slots. *)
Definition with_slots (self : Array2D) (xs ys : Slots) : Array2D :=
  mkArray2D (value self) (shape self) (unit_ self) xs ys.

(** The element of the buffer at row [r], column [c]. *)
Definition element (self : Array2D) (r c : nat) : Z :=
  nth c (nth r (value self) []) 0.


(** The matrix [m54] after its y index has been read. *)
Definition m54_cached : Array2D :=
  mkArray2D (grid 5 4) (5%nat, 4%nat) "strain"
    (mkSlots (Some (mkQuantity 0 "")) (Some (mkQuantity 1 "")) None)
    (mkSlots (Some (mkQuantity 10 "")) (Some (mkQuantity 5 ""))
             (Some (mkIndex [10; 15; 20; 25] ""))).

(** The matrix [m23] after the irregular index 0, 1, 3 has been set on its
    y axis. *)
Definition m23_irregular : Array2D :=
  mkArray2D (grid 2 3) (2%nat, 3%nat) "" fresh
    (mkSlots (Some (mkQuantity 0 "")) None (Some (mkIndex [0; 1; 3] ""))).

(** Rows 1 and 2, every second column from column 1. *)
Definition inner_block : Item :=
  Pair (KSlice (Some 1) (Some 3) None) (KSlice (Some 1) None (Some 2)).

(** Every row, the empty column range [2:2]. *)
Definition no_columns : Item :=
  Pair (KSlice None None None) (KSlice (Some 2) (Some 2) None).

(** * Properties *)

(** ** Setters *)

Lemma unit_eqb_refl (u : Unit) : unit_eqb u u = true.
Proof. apply String.eqb_refl. Qed.

Lemma unit_eqb_eq (u v : Unit) : unit_eqb u v = true <-> u = v.
Proof. apply String.eqb_eq. Qed.

Lemma to_same (q : Quantity) : to q (qunit q) = inr q.
Proof. unfold to. rewrite unit_eqb_refl. now destruct q. Qed.

Lemma to_mk (v : Z) (u : Unit) : to (mkQuantity v u) u = inr (mkQuantity v u).
Proof. apply (to_same (mkQuantity v u)). Qed.

Lemma q_ne_refl (q : Quantity) : q_ne q q = false.
Proof. unfold q_ne. now rewrite unit_eqb_refl, Z.eqb_refl. Qed.

Lemma q_ne_false (a b : Quantity) : q_ne a b = false <-> a = b.
Proof.
  split; [| intros ->; apply q_ne_refl].
  unfold q_ne. intros H. apply negb_false_iff, andb_true_iff in H.
  destruct H as [Hu Hv]. apply unit_eqb_eq in Hu. apply Z.eqb_eq in Hv.
  destruct a, b; simpl in *; congruence.
Qed.

Lemma y0_set_quantity (q : Quantity) (s : Slots) :
  y0_set (PyQuantity q) s =
  (inr tt, mkSlots (Some q) (_dy s)
                   (if survives q (_y0 s) then _yindex s else None)).
Proof.
  destruct s as [o d ix]. unfold y0_set, bind, get, lift, survives. simpl.
  destruct o as [o|]; simpl; [destruct (q_ne q o)|]; reflexivity.
Qed.

Lemma dy_set_quantity (q : Quantity) (s : Slots) :
  dy_set (PyQuantity q) s =
  (inr tt, mkSlots (_y0 s) (Some q)
                   (if survives q (_dy s) then _yindex s else None)).
Proof.
  destruct s as [o d ix]. unfold dy_set, bind, get, lift, survives. simpl.
  destruct d as [d|]; simpl; [destruct (q_ne q d)|]; reflexivity.
Qed.

Lemma y0_set_num (z : Z) (s : Slots) :
  y0_set (PyNum z) s = y0_set (PyQuantity (mkQuantity z (yunit s))) s.
Proof. reflexivity. Qed.

Lemma py_nth_0 (a : Z) (l : list Z) : py_nth (a :: l) 0 = inr a.
Proof.
  unfold py_nth. simpl List.length. rewrite Nat2Z.inj_succ.
  replace (0 <? 0) with false by reflexivity.
  replace (0 <=? 0) with true by reflexivity.
  destruct (Z.ltb_spec 0 (Z.succ (Z.of_nat (List.length l)))); [reflexivity | lia].
Qed.

Lemma py_nth_1 (a b : Z) (l : list Z) : py_nth (a :: b :: l) 1 = inr b.
Proof.
  unfold py_nth. simpl List.length. rewrite !Nat2Z.inj_succ.
  replace (1 <? 0) with false by reflexivity.
  replace (0 <=? 1) with true by reflexivity.
  destruct (Z.ltb_spec 1 (Z.succ (Z.succ (Z.of_nat (List.length l)))));
    [reflexivity | lia].
Qed.

(** Run the monad through the steps whose outcome is known. *)
Ltac py_run :=
  repeat (rewrite ?py_nth_0, ?py_nth_1, ?y0_set_quantity, ?dy_set_quantity,
                  ?to_mk, ?to_same;
          cbv beta iota delta [bind lift ret modify get raise]).

Lemma irregular_length (ix : Index) :
  regular ix = false -> (3 <= List.length (ivalue ix))%nat.
Proof.
  unfold regular. destruct (ivalue ix) as [|a [|b [|c l]]]; simpl; try discriminate.
  intros _. lia.
Qed.

(** The index setter on an index of at least two elements: it succeeds
    and leaves exactly the slots the index determines. *)
Lemma yindex_set_explicit (ix : Index) (s : Slots) :
  (2 <= List.length (ivalue ix))%nat ->
  yindex_set (Some (PyQuantityArr ix)) s = (inr tt, explicit_slots ix).
Proof.
  intros Hlen. destruct ix as [l u].
  destruct l as [|a [|b l]]; simpl in Hlen; try lia.
  unfold yindex_set, explicit_slots, index_nth.
  simpl Index_; simpl ivalue; simpl iunit.
  destruct (regular (mkIndex (a :: b :: l) u)); py_run; reflexivity.
Qed.

Lemma yindex_set_seq (l : list Z) (s : Slots) :
  yindex_set (Some (PySeq l)) s =
  yindex_set (Some (PyQuantityArr (mkIndex l _default_yunit))) s.
Proof. reflexivity. Qed.

Lemma yindex_set_arr (arr : PyArr) (s : Slots) :
  (2 <= List.length (ivalue (Index_ arr)))%nat ->
  yindex_set (Some arr) s = (inr tt, explicit_slots (Index_ arr)).
Proof.
  destruct arr as [l|ix]; intros H.
  - rewrite yindex_set_seq. now apply yindex_set_explicit.
  - now apply yindex_set_explicit.
Qed.

(** The constructor, given an index of at least two elements: whatever
    scalars come with it, the slots are those the index determines. *)
Lemma new_explicit (y0 dy : PyVal) (arr : PyArr) (s : Slots) :
  convertible y0 dy ->
  (2 <= List.length (ivalue (Index_ arr)))%nat ->
  __new__ y0 dy (Some arr) s = (inr tt, explicit_slots (Index_ arr)).
Proof.
  intros Hconv Hlen. unfold __new__.
  destruct dy as [|zd|[vd ud]], y0 as [|zo|[vo uo]];
    simpl in Hconv; subst; simpl Quantity_; simpl qunit;
    py_run; now apply yindex_set_arr.
Qed.

(** ** An explicit irregular index *)

(** C5.  Once an explicit irregular index has been set on the axis, the
    step getter raises the irregular-axis error, whose message names the
    y axis, and leaves the object as it was; the origin getter still
    succeeds and returns the first element of the index. *)
Theorem irregular_index_step_fails_origin_succeeds :
  forall (arr : PyArr) (s : Slots),
    regular (Index_ arr) = false ->
    exists s',
      yindex_set (Some arr) s = (inr tt, s') /\
      _yindex s' = Some (Index_ arr) /\
      (exists msg, dy_get s' = (inl (AttributeError msg), s') /\
                   occurs "y-axis" msg = true) /\
      (exists o, index_nth (Index_ arr) 0 = inr o /\
                 y0_get s' = (inr o, s')).
Proof.
  intros arr s Hirr.
  pose proof (irregular_length _ Hirr) as Hlen.
  exists (explicit_slots (Index_ arr)).
  split; [apply yindex_set_arr; lia|].
  unfold explicit_slots. rewrite Hirr.
  split; [reflexivity|]. split.
  - eexists. split.
    + unfold dy_get. py_run. simpl. rewrite Hirr. reflexivity.
    + reflexivity.
  - destruct (Index_ arr) as [l u]. destruct l as [|a l]; [simpl in Hlen; lia|].
    eexists. split.
    + unfold index_nth. simpl ivalue. rewrite py_nth_0. reflexivity.
    + reflexivity.
Qed.

Lemma irregular_index_step_fails_origin_succeeds_witness :
  regular (Index_ (PySeq [0; 1; 3])) = false /\
  exists s',
    yindex_set (Some (PySeq [0; 1; 3])) hertz_axis = (inr tt, s') /\
    _yindex s' = Some (Index_ (PySeq [0; 1; 3])) /\
    (exists msg, dy_get s' = (inl (AttributeError msg), s') /\
                 occurs "y-axis" msg = true) /\
    (exists o, index_nth (Index_ (PySeq [0; 1; 3])) 0 = inr o /\
               y0_get s' = (inr o, s')).
Proof.
  split; [reflexivity|].
  apply (irregular_index_step_fails_origin_succeeds (PySeq [0; 1; 3]) hertz_axis).
  reflexivity.
Defined.

(** ** The length of an explicit index *)

(** A two-element index is set on the three-column matrix [m23] without
    any error. *)
Lemma mismatched_index_not_rejected :
  List.length (ivalue (Index_ (PySeq [0; 1]))) <> snd (shape m23) /\
  ~ Rejects m23 (PySeq [0; 1]).
Proof.
  split; [simpl; lia|].
  intros [e [a' H]]. vm_compute in H. discriminate H.
Qed.

(** C3, as the code has it.  Neither the index setter nor the constructor
    compares the length of the index with the extent of the buffer: an
    index of two or more elements whose length differs from the number of
    columns is accepted, cached as given, and the buffer keeps its shape. *)
Theorem mismatched_index_accepted :
  forall (a : Array2D) (arr : PyArr) (y0 dy : PyVal),
    List.length (ivalue (Index_ arr)) <> snd (shape a) ->
    (2 <= List.length (ivalue (Index_ arr)))%nat ->
    convertible y0 dy ->
    (exists a', on_y (yindex_set (Some arr)) a = (inr tt, a') /\
                _yindex (yslots a') = Some (Index_ arr) /\
                shape a' = shape a) /\
    (exists a', on_y (__new__ y0 dy (Some arr)) a = (inr tt, a') /\
                _yindex (yslots a') = Some (Index_ arr) /\
                shape a' = shape a).
Proof.
  intros a arr y0 dy _ Hlen Hconv. split.
  - unfold on_y. rewrite yindex_set_arr by exact Hlen.
    eexists. split; [reflexivity|]. split; reflexivity.
  - unfold on_y. rewrite new_explicit by assumption.
    eexists. split; [reflexivity|]. split; reflexivity.
Qed.

Lemma mismatched_index_accepted_witness :
  List.length (ivalue (Index_ (PySeq [0; 1]))) <> snd (shape m23) /\
  (exists a', on_y (yindex_set (Some (PySeq [0; 1]))) m23 = (inr tt, a') /\
              _yindex (yslots a') = Some (Index_ (PySeq [0; 1])) /\
              shape a' = shape m23) /\
  (exists a', on_y (__new__ (PyNum 7) (PyNum 3) (Some (PySeq [0; 1]))) m23
              = (inr tt, a') /\
              _yindex (yslots a') = Some (Index_ (PySeq [0; 1])) /\
              shape a' = shape m23).
Proof.
  assert (H : List.length (ivalue (Index_ (PySeq [0; 1]))) <> snd (shape m23))
    by (simpl; lia).
  split; [exact H|].
  apply (mismatched_index_accepted m23 (PySeq [0; 1]) (PyNum 7) (PyNum 3) H).
  - simpl; lia.
  - simpl; exact I.
Defined.

(** ** Construction *)

(** With [y0] in seconds and [dy] in hertz the constructor raises at
    [Quantity(y0, yunit)], before the index is looked at: the scalars
    given beside an index are not ignored. *)
Lemma construction_with_index_rejects_inconvertible_scalars :
  __new__ (PyQuantity (mkQuantity 0 "s")) (PyQuantity (mkQuantity 1 "Hz"))
          (Some (PySeq [0; 1; 3])) fresh
  = (inl (UnitConversionError "units are not convertible"),
     mkSlots None (Some (mkQuantity 1 "Hz")) None).
Proof. reflexivity. Qed.

(** C8, as the code has it.  A constructor call that supplies an explicit y index (of two or
    more elements) together with [y0] and [dy], bare numbers or quantities
    in one unit, succeeds, and the origin, the
    step and the index of the axis are those the index determines: the
    first element, the first difference when the index is regular and no
    step otherwise, and the index itself.  They do not depend on [y0] and
    [dy]: the call that supplies the index alone leaves the same slots. *)
Theorem explicit_index_takes_precedence :
  forall (s : Slots) (y0 dy : PyVal) (arr : PyArr),
    convertible y0 dy ->
    (2 <= List.length (ivalue (Index_ arr)))%nat ->
    exists s',
      __new__ y0 dy (Some arr) s = (inr tt, s') /\
      _y0 s' = Some (mkQuantity (nth 0 (ivalue (Index_ arr)) 0) (iunit (Index_ arr))) /\
      _dy s' = (if regular (Index_ arr)
                then Some (mkQuantity (nth 1 (ivalue (Index_ arr)) 0
                                       - nth 0 (ivalue (Index_ arr)) 0)
                                      (iunit (Index_ arr)))
                else None) /\
      _yindex s' = Some (Index_ arr) /\
      __new__ PyNone PyNone (Some arr) s = (inr tt, s').
Proof.
  intros s y0 dy arr Hconv Hlen.
  exists (explicit_slots (Index_ arr)).
  split; [now apply new_explicit|].
  repeat split. now apply new_explicit.
Qed.

Lemma explicit_index_takes_precedence_witness :
  convertible (PyQuantity (mkQuantity 50 "Hz")) (PyQuantity (mkQuantity 2 "Hz")) /\
  exists s',
    __new__ (PyQuantity (mkQuantity 50 "Hz")) (PyQuantity (mkQuantity 2 "Hz"))
            (Some (PySeq [0; 1; 3])) hertz_axis = (inr tt, s') /\
    _y0 s' = Some (mkQuantity (nth 0 (ivalue (Index_ (PySeq [0; 1; 3]))) 0)
                              (iunit (Index_ (PySeq [0; 1; 3])))) /\
    _dy s' = (if regular (Index_ (PySeq [0; 1; 3]))
              then Some (mkQuantity (nth 1 (ivalue (Index_ (PySeq [0; 1; 3]))) 0
                                     - nth 0 (ivalue (Index_ (PySeq [0; 1; 3]))) 0)
                                    (iunit (Index_ (PySeq [0; 1; 3]))))
              else None) /\
    _yindex s' = Some (Index_ (PySeq [0; 1; 3])) /\
    __new__ PyNone PyNone (Some (PySeq [0; 1; 3])) hertz_axis = (inr tt, s').
Proof.
  split; [reflexivity|].
  apply (explicit_index_takes_precedence hertz_axis
           (PyQuantity (mkQuantity 50 "Hz")) (PyQuantity (mkQuantity 2 "Hz"))
           (PySeq [0; 1; 3])).
  - reflexivity.
  - simpl; lia.
Defined.

(** ** Bare numbers given to the setters *)

(** The origin setter tags a bare number with the unit of the axis,
    whatever that unit is. *)
Lemma y0_set_bare_succeeds (z : Z) (s : Slots) :
  fst (y0_set (PyNum z) s) = inr tt /\
  _y0 (snd (y0_set (PyNum z) s)) = Some (mkQuantity z (yunit s)).
Proof. rewrite y0_set_num, y0_set_quantity. split; reflexivity. Qed.

(** C9, on an axis in hertz.  The origin setter accepts the bare number 2
    and stores 2 Hz; the step setter, given the same bare number, makes a
    dimensionless quantity of it and fails to convert that to hertz. *)
Theorem bare_step_rejected_where_bare_origin_accepted :
  y0_set (PyNum 2) hertz_axis
  = (inr tt, mkSlots (Some (mkQuantity 2 "Hz")) (Some (mkQuantity 1 "Hz")) None) /\
  dy_set (PyNum 2) hertz_axis
  = (inl (UnitConversionError "units are not convertible"), hertz_axis).
Proof. split; reflexivity. Qed.

(** ** Span *)

Lemma yspan_regular (n : nat) (s : Slots) (o d : Quantity) :
  RegularState s o d ->
  yspan n s
  = (inr (Segment_ (qvalue o) (qvalue o + Z.of_nat n * qvalue d)), s).
Proof.
  intros (Ho & Hd & Hix & Hu). destruct s as [so sd six]. simpl in *. subst.
  destruct o as [vo uo], d as [vd ud]. simpl in Hu. subst.
  unfold yspan, y0_get, dy_get. py_run. simpl. unfold yunit. simpl.
  py_run. reflexivity.
Qed.

(** Changing the step of a regular axis changes the span at once. *)
Lemma yspan_after_step_change (n : nat) (s : Slots) (o d d' : Quantity) :
  RegularState s o d -> qunit d' = qunit o ->
  exists s', dy_set (PyQuantity d') s = (inr tt, s') /\
             yspan n s'
             = (inr (Segment_ (qvalue o) (qvalue o + Z.of_nat n * qvalue d')), s').
Proof.
  intros (Ho & Hd & Hix & Hu) Hu'. rewrite dy_set_quantity.
  eexists. split; [reflexivity|].
  apply yspan_regular. unfold RegularState. simpl.
  rewrite Hix. destruct (survives d' (_dy s)); auto.
Qed.

(** C2, on the irregular index 0, 1, 3.  The span of the axis would be
    [0, 5) with the last spacing 2 as the step; [yspan] computes that
    spacing, does not use it, and asks for [self.dy], which raises on an
    irregular index. *)
Theorem yspan_irregular_index_raises :
  exists s,
    yindex_set (Some (PySeq [0; 1; 3])) (mkSlots None None None) = (inr tt, s) /\
    _yindex s = Some (mkIndex [0; 1; 3] "") /\
    yspan 3 s
    = (inl (AttributeError
              "This series has an irregular y-axis index, so 'dy' is not well defined"),
       s).
Proof. eexists. repeat split. Qed.

(** ** The materialized index *)

Lemma arange_length (n : nat) : List.length (arange n) = n.
Proof. unfold arange. now rewrite length_map, length_seq. Qed.

Lemma py_nth_map_arange (f : Z -> Z) (n : nat) (i : Z) :
  0 <= i < Z.of_nat n ->
  py_nth (map f (arange n)) i = inr (f i).
Proof.
  intros Hi. unfold py_nth. rewrite length_map, arange_length.
  destruct (Z.ltb_spec i 0); [lia|].
  destruct (Z.leb_spec 0 i); [|lia].
  destruct (Z.ltb_spec i (Z.of_nat n)); [|lia].
  simpl. f_equal.
  rewrite (nth_indep _ 0 (f 0)) by (rewrite length_map, arange_length; lia).
  rewrite map_nth. f_equal. unfold arange.
  rewrite (nth_indep _ 0 (Z.of_nat 0)) by (rewrite length_map, length_seq; lia).
  rewrite map_nth, seq_nth by lia. simpl. lia.
Qed.

(** The index getter on an axis without a cached index, whose origin and
    step are set in one unit. *)
Lemma yindex_get_regular (n : nat) (s : Slots) (o d : Quantity) :
  RegularState s o d ->
  yindex_get n s =
  (inr (mkIndex (regular_coordinates (qvalue o) (qvalue d) n) (qunit o)),
   set_yindex
     (Some (mkIndex (regular_coordinates (qvalue o) (qvalue d) n) (qunit o))) s).
Proof.
  intros (Ho & Hd & Hix & Hu). destruct s as [so sd six]. simpl in *. subst.
  destruct o as [vo uo], d as [vd ud]. simpl in Hu. subst.
  unfold yindex_get, y0_get, dy_get, q_add_arange. py_run. simpl.
  py_run. reflexivity.
Qed.

Lemma regular_coordinates_length (o d : Z) (n : nat) :
  List.length (regular_coordinates o d n) = n.
Proof. unfold regular_coordinates. now rewrite length_map, arange_length. Qed.

(** On an axis of extent 1 the round trip does not come back: the
    materialized index has one element, the setter finds its second
    differences all zero and subscripts [index[1]] for the step.  (Were a
    one-element index flagged irregular, the setter would delete the step;
    the step is lost either way.) *)
Lemma round_trip_fails_on_single_sample :
  RegularState unit_axis (mkQuantity 0 "") (mkQuantity 1 "") /\
  ~ RoundTrip 1 unit_axis (mkQuantity 0 "") (mkQuantity 1 "").
Proof.
  split; [repeat split|].
  intros (ix & s1 & s2 & Hget & Hset & _).
  vm_compute in Hget. injection Hget as <- <-.
  vm_compute in Hset. discriminate Hset.
Qed.

(** On an axis of extent 0 the round trip fails: the materialized index
    is empty and the setter raises at [index[0]]. *)
Lemma round_trip_fails_on_empty_axis :
  RegularState unit_axis (mkQuantity 0 "") (mkQuantity 1 "") /\
  ~ RoundTrip 0 unit_axis (mkQuantity 0 "") (mkQuantity 1 "").
Proof.
  split; [repeat split|].
  intros (ix & s1 & s2 & Hget & Hset & _).
  vm_compute in Hget. injection Hget as <- <-.
  vm_compute in Hset. discriminate Hset.
Qed.

(** C6, as the code has it.  On an axis in the regular state, of any
    extent [n], the materialized index has [origin + i * step] at every
    position [i] in [0..n-1].  When [n] is at least 2, setting the
    materialized index back succeeds and leaves the same origin and the
    same index; the step it leaves is the one the setter derives from the
    index, [index[1] - index[0]] when the index is flagged regular and none
    otherwise. *)
Theorem round_trip_keeps_origin_and_index :
  forall (n : nat) (s : Slots) (o d : Quantity),
    RegularState s o d ->
    exists ix s1,
      yindex_get n s = (inr ix, s1) /\
      (forall i, 0 <= i < Z.of_nat n ->
                 index_nth ix i
                 = inr (mkQuantity (qvalue o + i * qvalue d) (qunit o))) /\
      ((2 <= n)%nat ->
       exists s2,
         yindex_set (Some (PyQuantityArr ix)) s1 = (inr tt, s2) /\
         _y0 s2 = Some o /\ _yindex s2 = Some ix /\
         _dy s2 = (if regular ix then Some (first_difference ix) else None)).
Proof.
  intros n s o d Hreg.
  eexists. eexists. split; [exact (yindex_get_regular n s o d Hreg)|]. split.
  - intros i Hi. unfold index_nth, regular_coordinates. simpl ivalue.
    rewrite py_nth_map_arange by exact Hi. reflexivity.
  - intros Hn.
    rewrite yindex_set_explicit
      by (simpl ivalue; rewrite regular_coordinates_length; exact Hn).
    eexists. split; [reflexivity|].
    unfold explicit_slots. cbn [_y0 _dy _yindex]. split; [|split; reflexivity].
    destruct n as [|[|n]]; try lia.
    destruct o as [vo uo]. unfold regular_coordinates, arange.
    cbn [seq map nth ivalue iunit qvalue qunit].
    change (Z.of_nat 0) with 0.
    replace (vo + 0 * qvalue d) with vo by ring. reflexivity.
Qed.

Lemma round_trip_keeps_origin_and_index_witness :
  RegularState hertz_axis_regular (mkQuantity 100 "Hz") (mkQuantity 5 "Hz") /\
  (2 <= 4)%nat /\
  exists ix s1,
    yindex_get 4 hertz_axis_regular = (inr ix, s1) /\
    (forall i, 0 <= i < Z.of_nat 4 ->
               index_nth ix i = inr (mkQuantity (100 + i * 5) "Hz")) /\
    exists s2,
      yindex_set (Some (PyQuantityArr ix)) s1 = (inr tt, s2) /\
      _y0 s2 = Some (mkQuantity 100 "Hz") /\ _yindex s2 = Some ix /\
      _dy s2 = (if regular ix then Some (first_difference ix) else None).
Proof.
  assert (H : RegularState hertz_axis_regular
                (mkQuantity 100 "Hz") (mkQuantity 5 "Hz"))
    by (repeat split; reflexivity).
  assert (Hn : (2 <= 4)%nat) by lia.
  split; [exact H|]. split; [exact Hn|].
  destruct (round_trip_keeps_origin_and_index 4 hertz_axis_regular
              (mkQuantity 100 "Hz") (mkQuantity 5 "Hz") H)
    as (ix & s1 & Hget & Hidx & Hback).
  exists ix, s1. split; [exact Hget|]. split; [exact Hidx | exact (Hback Hn)].
Defined.

(** ** Invalidation of the cached index *)

Lemma yindex_get_cached (n : nat) (s : Slots) (ix : Index) :
  _yindex s = Some ix -> yindex_get n s = (inr ix, s).
Proof.
  intros H. unfold yindex_get. cbv beta iota delta [bind get].
  rewrite H. reflexivity.
Qed.

(** The state a read leaves when it had to materialize the index: origin
    and step are stored, in one unit, and the index cached is
    [origin + i * step]. *)
Lemma yindex_get_materializes (n : nat) (s0 s : Slots) (ix : Index) :
  _yindex s0 = None -> yindex_get n s0 = (inr ix, s) ->
  exists o d,
    _y0 s = Some o /\ _dy s = Some d /\ _yindex s = Some ix /\
    qunit d = qunit o /\
    ix = mkIndex (regular_coordinates (qvalue o) (qvalue d) n) (qunit o).
Proof.
  destruct s0 as [so sd si]. simpl. intros ->.
  unfold yindex_get, y0_get, dy_get, q_add_arange, to.
  destruct so as [[vo uo]|], sd as [[vd ud]|];
    cbv beta iota zeta delta [bind get ret modify lift raise _yindex _y0 _dy
                              set_y0 set_dy set_yindex yunit qunit qvalue];
    match goal with
    | |- context [unit_eqb ?a ?b] => destruct (unit_eqb a b) eqn:E
    end;
    intros H; try discriminate H; injection H as <- <-;
    apply unit_eqb_eq in E; subst;
    eexists; eexists; repeat split.
Qed.

(** A bare number is stored in the unit of the materialized index. *)
Lemma bare_number_in_index_unit (n : nat) (s0 s : Slots) (ix : Index) (z : Z) :
  _yindex s0 = None -> yindex_get n s0 = (inr ix, s) ->
  qunit (stored (PyNum z) (yunit s)) = iunit ix.
Proof.
  intros H0 Hget.
  destruct (yindex_get_materializes n s0 s ix H0 Hget)
    as (o & d & Ho & Hd & _ & Hu & ->).
  unfold yunit. rewrite Hd. simpl. exact Hu.
Qed.

(** A quantity in a unit that does not convert to the unit of the step is
    stored by the origin setter like any other and the cached index is
    deleted, but the next read of the index raises: seconds for the origin
    of an axis in hertz. *)
Lemma origin_in_foreign_unit_breaks_index :
  _yindex hertz_axis_regular = None /\
  yindex_get 3 hertz_axis_regular
  = (inr (mkIndex [100; 105; 110] "Hz"), cached_axis) /\
  exists s',
    y0_set (PyQuantity (mkQuantity 7 "s")) cached_axis = (inr tt, s') /\
    _y0 s' = Some (mkQuantity 7 "s") /\ _yindex s' = None /\
    fst (yindex_get 3 s')
    = inl (UnitConversionError "units are not convertible").
Proof.
  split; [reflexivity|]. split; [reflexivity|].
  eexists. repeat split.
Qed.

(** C7, as the code has it.  On an axis whose index has been materialized
    and cached by a read, the origin setter, given a bare number or a
    quantity in the unit of that index, stores the value.  If its value
    differs from that of the current origin the cached index is deleted and
    the next read of the index gives [new origin + i * step]; if it equals
    the current origin the cached index stays and the next read returns
    it. *)
Theorem origin_change_invalidates_cached_index :
  forall (n : nat) (s0 s : Slots) (ix : Index) (v : PyVal),
    _yindex s0 = None -> yindex_get n s0 = (inr ix, s) ->
    v <> PyNone ->
    qunit (stored v (yunit s)) = iunit ix ->
    exists o d s',
      _y0 s = Some o /\ _dy s = Some d /\ _yindex s = Some ix /\
      y0_set v s = (inr tt, s') /\
      _y0 s' = Some (stored v (yunit s)) /\
      (qvalue (stored v (yunit s)) <> qvalue o ->
       _yindex s' = None /\
       exists s'',
         yindex_get n s'
         = (inr (mkIndex (regular_coordinates (qvalue (stored v (yunit s)))
                                              (qvalue d) n)
                         (iunit ix)),
            s'')) /\
      (qvalue (stored v (yunit s)) = qvalue o ->
       _yindex s' = Some ix /\ yindex_get n s' = (inr ix, s')).
Proof.
  intros n s0 s ix v H0 Hget Hv Hu.
  destruct (yindex_get_materializes n s0 s ix H0 Hget)
    as (o & d & Ho & Hd & Hix & Hdu & Eix).
  assert (Hset : y0_set v s = y0_set (PyQuantity (stored v (yunit s))) s)
    by (destruct v; [congruence | reflexivity | reflexivity]).
  set (q := stored v (yunit s)) in *.
  assert (Hqu : qunit q = qunit o) by (rewrite Hu, Eix; reflexivity).
  exists o, d. eexists.
  split; [exact Ho|]. split; [exact Hd|]. split; [exact Hix|].
  rewrite Hset, y0_set_quantity, Ho, Hix. cbn [survives].
  split; [reflexivity|]. split; [reflexivity|].
  unfold q_ne. rewrite Hqu, unit_eqb_refl. cbn [andb _yindex].
  split.
  - intros Hne. destruct (Z.eqb_spec (qvalue q) (qvalue o)) as [E|_];
      [contradiction|]. cbn [negb]. split; [reflexivity|].
    eexists. rewrite Eix. cbn [iunit]. rewrite <- Hqu.
    apply (yindex_get_regular n _ q d). repeat split; [assumption|congruence].
  - intros Heq. rewrite Heq, Z.eqb_refl. cbn [negb]. split; [reflexivity|].
    apply yindex_get_cached. reflexivity.
Qed.

Lemma origin_change_invalidates_cached_index_witness :
  _yindex hertz_axis_regular = None /\
  yindex_get 3 hertz_axis_regular
  = (inr (mkIndex [100; 105; 110] "Hz"), cached_axis) /\
  PyNum 7 <> PyNone /\
  qunit (stored (PyNum 7) (yunit cached_axis)) = iunit (mkIndex [100; 105; 110] "Hz") /\
  exists o d s',
    _y0 cached_axis = Some o /\ _dy cached_axis = Some d /\
    _yindex cached_axis = Some (mkIndex [100; 105; 110] "Hz") /\
    y0_set (PyNum 7) cached_axis = (inr tt, s') /\
    _y0 s' = Some (stored (PyNum 7) (yunit cached_axis)) /\
    (qvalue (stored (PyNum 7) (yunit cached_axis)) <> qvalue o ->
     _yindex s' = None /\
     exists s'',
       yindex_get 3 s'
       = (inr (mkIndex (regular_coordinates
                          (qvalue (stored (PyNum 7) (yunit cached_axis)))
                          (qvalue d) 3)
                       (iunit (mkIndex [100; 105; 110] "Hz"))),
          s'')) /\
    (qvalue (stored (PyNum 7) (yunit cached_axis)) = qvalue o ->
     _yindex s' = Some (mkIndex [100; 105; 110] "Hz") /\
     yindex_get 3 s' = (inr (mkIndex [100; 105; 110] "Hz"), s')).
Proof.
  assert (H1 : _yindex hertz_axis_regular = None) by reflexivity.
  assert (H2 : yindex_get 3 hertz_axis_regular
               = (inr (mkIndex [100; 105; 110] "Hz"), cached_axis))
    by reflexivity.
  assert (H3 : PyNum 7 <> PyNone) by discriminate.
  assert (H4 : qunit (stored (PyNum 7) (yunit cached_axis))
               = iunit (mkIndex [100; 105; 110] "Hz")) by reflexivity.
  split; [exact H1|]. split; [exact H2|]. split; [exact H3|]. split; [exact H4|].
  exact (origin_change_invalidates_cached_index 3 hertz_axis_regular cached_axis
           (mkIndex [100; 105; 110] "Hz") (PyNum 7) H1 H2 H3 H4).
Defined.

(** ** Slicing *)

Section SlicingProperties.

Variable inherited : Array2D -> Item -> Slots * Slots.

(** The view of a one-dimensional result, when the step and the origin
    of the y axis are set. *)
Lemma view_series_column (x : Key) (newx : Slots) (self : Array2D)
      (o d : Quantity) :
  is_float_or_int x = true ->
  _y0 (yslots self) = Some o -> _dy (yslots self) = Some d ->
  view_series x newx self = (inr (_columnclass, crossed newx o d), self).
Proof.
  intros Hx Ho Hd. unfold view_series. rewrite Hx.
  destruct self as [v sh u xs [yo yd yi]]. simpl in Ho, Hd. subst.
  unfold crossed, on_y, on_new, x0_set, dx_set, dy_get, y0_get.
  cbv beta iota delta [bind lift ret modify get raise yslots _dy _y0
                       value shape unit_ xslots].
  rewrite !dy_set_quantity.
  cbv beta iota delta [bind lift ret modify get raise yslots _dy _y0
                       value shape unit_ xslots].
  rewrite !y0_set_quantity. reflexivity.
Qed.

(** The range update of a one-dimensional result, when the x axis of the
    matrix is in the regular state: it is computed from the origin and
    the step of the x axis. *)
Lemma update_series_reads_x_axis (start stop step : option Z)
      (newx : Slots) (self : Array2D) (o d : Quantity) :
  RegularState (xslots self) o d ->
  update_series start stop step newx self
  = (inr (ranged newx o d start step), self).
Proof.
  intros (Ho & Hd & Hix & Hu).
  destruct self as [v sh u [xo xd xi] ys]. simpl in Ho, Hd, Hix. subst.
  destruct o as [vo uo], d as [vd ud]. simpl in Hu. subst.
  unfold update_series, ranged.
  cbv beta iota delta [bind get xslots _yindex].
  destruct (truthy start) as [k|], (truthy step) as [j|];
    unfold on_x, on_new, x0_set, dx_set, x0_get, dx_get, y0_get, dy_get,
           q_add, q_scale;
    cbv beta iota delta [bind lift ret modify get raise xslots yslots _dy _y0
                         value shape unit_ qunit qvalue];
    rewrite ?to_mk;
    cbv beta iota;
    rewrite ?y0_set_quantity;
    cbv beta iota delta [bind lift ret modify get raise xslots yslots _dy _y0
                         value shape unit_ qunit qvalue];
    rewrite ?dy_set_quantity;
    reflexivity.
Qed.

(** The range update when the x index of the matrix is cached: the new
    index is the x index cut by the range. *)
Lemma update_series_slices_x_index (start stop step : option Z)
      (newx : Slots) (self : Array2D) (ix ix' : Index) :
  _yindex (xslots self) = Some ix ->
  index_slice ix start stop step = inr ix' ->
  (2 <= List.length (ivalue ix'))%nat ->
  update_series start stop step newx self = (inr (explicit_slots ix'), self).
Proof.
  intros Hix Hcut Hlen.
  destruct self as [v sh u [xo xd xi] ys]. simpl in Hix. subst.
  unfold update_series, on_x, on_new, xindex_get, xindex_set, yindex_get.
  cbv beta iota delta [bind lift ret modify get raise xslots yslots _yindex
                       value shape unit_].
  rewrite Hcut. cbv beta iota.
  rewrite yindex_set_explicit by exact Hlen. reflexivity.
Qed.

(** C1, on the 10x10 matrix [m10]: rows from 0 s in steps of 2 s,
    columns from 100 Hz in steps of 5 Hz.  The slice [[3, 2:8]] is taken
    over the columns, so its origin would be 100 + 2 * 5 = 110 Hz; the
    range update reads the x axis of the matrix instead and the origin
    comes out as 0 + 2 * 2 = 4 s, beside a step of 5 Hz.  With both
    indices of the matrix cached, the index of the result is the index
    of the rows cut by [2:8], in seconds, not that of the columns. *)
Theorem row_scalar_column_range_reads_row_axis :
  __getitem__ inherited (Pair (KInt 3) (KSlice (Some 2) (Some 8) None)) m10
  = (inr (RSeries _columnclass
            (mkSeries [32; 33; 34; 35; 36; 37] "strain"
               (mkSlots (Some (mkQuantity 4 "s"))
                        (Some (mkQuantity 5 "Hz")) None))),
     m10) /\
  __getitem__ inherited (Pair (KInt 3) (KSlice (Some 2) (Some 8) None)) m10_cached
  = (inr (RSeries _columnclass
            (mkSeries [32; 33; 34; 35; 36; 37] "strain"
               (mkSlots (Some (mkQuantity 4 "s"))
                        (Some (mkQuantity 2 "s"))
                        (Some (mkIndex [4; 6; 8; 10; 12; 14] "s"))))),
     m10_cached).
Proof.
  split; unfold __getitem__; cbv beta iota zeta delta [bind get lift].
  - change (ndarray_getitem (value m10) (shape m10)
              (Pair (KInt 3) (KSlice (Some 2) (Some 8) None)))
      with (@inr Exception ndarray (Nd1 [32; 33; 34; 35; 36; 37])).
    cbv beta iota zeta.
    destruct (inherited m10 _) as [newx newy].
    rewrite (view_series_column _ _ _ (mkQuantity 100 "Hz") (mkQuantity 5 "Hz"))
      by reflexivity.
    cbv beta iota zeta.
    rewrite (update_series_reads_x_axis _ _ _ _ _
               (mkQuantity 0 "s") (mkQuantity 2 "s"))
      by (repeat split).
    cbv beta iota zeta delta [ret].
    unfold ranged, crossed, x0_set, dx_set.
    rewrite !dy_set_quantity, !y0_set_quantity. reflexivity.
  - change (ndarray_getitem (value m10_cached) (shape m10_cached)
              (Pair (KInt 3) (KSlice (Some 2) (Some 8) None)))
      with (@inr Exception ndarray (Nd1 [32; 33; 34; 35; 36; 37])).
    cbv beta iota zeta.
    destruct (inherited m10_cached _) as [newx newy].
    rewrite (view_series_column _ _ _ (mkQuantity 100 "Hz") (mkQuantity 5 "Hz"))
      by reflexivity.
    cbv beta iota zeta.
    rewrite (update_series_slices_x_index _ _ _ _ _
               (mkIndex (regular_coordinates 0 2 10) "s")
               (mkIndex [4; 6; 8; 10; 12; 14] "s"))
      by (try reflexivity; simpl; lia).
    reflexivity.
Qed.

(** What [view_series] returns, read off its two branches. *)
Lemma view_series_result (x : Key) (newx : Slots) (self : Array2D)
      (cls : Class) (newx1 : Slots) (self1 : Array2D) :
  view_series x newx self = (inr (cls, newx1), self1) ->
  if is_float_or_int x
  then cls = _columnclass /\
       exists d o s1,
         on_y dy_get self = (inr d, s1) /\ on_y y0_get s1 = (inr o, self1) /\
         _dy newx1 = Some d /\ _y0 newx1 = Some o
  else cls = _rowclass /\ newx1 = newx /\ self1 = self.
Proof.
  unfold view_series. destruct (is_float_or_int x).
  - unfold bind at 1.
    destruct (on_y dy_get self) as [[e|d] s1] eqn:Hd; [discriminate|].
    unfold bind at 1. unfold on_new at 1. unfold dx_set.
    rewrite dy_set_quantity.
    unfold bind at 1.
    destruct (on_y y0_get s1) as [[e|o] s2] eqn:Ho; [discriminate|].
    unfold bind at 1. unfold on_new at 1. unfold x0_set.
    rewrite y0_set_quantity. unfold ret.
    intros H. injection H as <- <- <-.
    split; [reflexivity|]. exists d, o, s1. repeat split; assumption.
  - unfold ret. intros H. injection H as <- <- <-. repeat split.
Qed.

(** C10.  Whenever [__getitem__] returns a one-dimensional result, its
    class and its x slots before the range update are those of
    [view_series] run on the row component [x] of the index expression.
    If [x] is a Python float or int, the result is viewed as
    [_columnclass] and [new.dx], [new.x0] are the step and the origin read
    from the y axis of the matrix.  For any other row component (a numpy
    integer scalar, a slice) it is viewed as [_rowclass], the x slots it
    inherited are untouched and the matrix is not read; when moreover the
    column component is not a slice, these are the slots of the result. *)
Theorem cross_axis_assignment_only_for_float_or_int :
  forall (item : Item) (self : Array2D) (cls : Class) (s : Series)
         (self' : Array2D),
    __getitem__ inherited item self = (inr (RSeries cls s), self') ->
    exists newx1 self1,
      view_series (row_key item) (fst (inherited self item)) self
      = (inr (cls, newx1), self1) /\
      (if is_float_or_int (row_key item)
       then cls = _columnclass /\
            exists d o s1,
              on_y dy_get self = (inr d, s1) /\
              on_y y0_get s1 = (inr o, self1) /\
              _dy newx1 = Some d /\ _y0 newx1 = Some o
       else cls = _rowclass /\ newx1 = fst (inherited self item) /\
            self1 = self) /\
      (column_is_slice item = false -> sslots s = newx1 /\ self' = self1).
Proof.
  intros item self cls s self'. unfold __getitem__.
  cbv beta iota zeta delta [bind get lift].
  destruct (ndarray_getitem (value self) (shape self) item) as [e|new];
    [discriminate|].
  destruct (inherited self item) as [newx newy]. simpl fst. simpl snd.
  assert (Hview : forall (x : Key) (y : option Key),
             (let (s0, s1) := view_series x newx self in
              match s0 with
              | inl e => (inl e, s1)
              | inr cn =>
                  (let (cls0, newx0) := cn in
                   newx2 <~ match y with
                            | Some (KSlice start stop step) =>
                                update_series start stop step newx0
                            | _ => ret newx0
                            end ;;
                   ret (RSeries cls0 (mkSeries
                          match new with Nd1 l => l | _ => [] end
                          (unit_ self) newx2))) s1
              end) = (inr (RSeries cls s), self') ->
             exists newx1 self1,
               view_series x newx self = (inr (cls, newx1), self1) /\
               (match y with
                | Some (KSlice _ _ _) => True
                | _ => sslots s = newx1 /\ self' = self1
                end)).
  { intros x y.
    destruct (view_series x newx self) as [[e|[cls0 newx0]] s1]; [discriminate|].
    intros H. exists newx0, s1.
    destruct y as [[i|f|i|start stop step]|];
      cbv beta iota zeta delta [bind ret] in H;
      try (injection H as <- <- <-; split; [reflexivity | split; reflexivity]).
    destruct (update_series start stop step newx0 s1) as [[e|newx2] s2];
      [discriminate|].
    injection H as <- <- <-. split; [reflexivity | exact I]. }
  destruct new as [v|l|rows shp].
  - destruct item; cbv beta iota zeta delta [ret]; discriminate.
  - destruct item as [x|x y]; intros H.
    + destruct (Hview x None H) as (newx1 & self1 & Hv & Hs).
      exists newx1, self1. split; [exact Hv|]. split.
      * exact (view_series_result _ _ _ _ _ _ Hv).
      * intros _. exact Hs.
    + destruct (Hview x (Some y) H) as (newx1 & self1 & Hv & Hs).
      exists newx1, self1. split; [exact Hv|]. split.
      * exact (view_series_result _ _ _ _ _ _ Hv).
      * simpl. destruct y; intros Hy; try exact Hs. discriminate Hy.
  - destruct item as [x|x y]; cbv beta iota zeta delta [bind ret].
    + discriminate.
    + destruct y as [i|f|i|start stop step];
        cbv beta iota zeta delta [bind ret]; try discriminate.
      destruct (update_array2d start stop step (snd shp) _ self)
        as [[e|newy1] s1]; discriminate.
Qed.

End SlicingProperties.

Lemma cross_axis_assignment_only_for_float_or_int_witness :
  __getitem__ inherit_all (Pair (KNpInt 3) (KSlice (Some 2) (Some 8) None)) m10
  = (inr (RSeries _rowclass
            (mkSeries [32; 33; 34; 35; 36; 37] "strain"
               (mkSlots (Some (mkQuantity 4 "s")) (Some (mkQuantity 2 "s")) None))),
     m10) /\
  exists newx1 self1,
    view_series (row_key (Pair (KNpInt 3) (KSlice (Some 2) (Some 8) None)))
                (fst (inherit_all m10 (Pair (KNpInt 3) (KSlice (Some 2) (Some 8) None))))
                m10
    = (inr (_rowclass, newx1), self1) /\
    (if is_float_or_int (row_key (Pair (KNpInt 3) (KSlice (Some 2) (Some 8) None)))
     then _rowclass = _columnclass /\
          exists d o s1,
            on_y dy_get m10 = (inr d, s1) /\
            on_y y0_get s1 = (inr o, self1) /\
            _dy newx1 = Some d /\ _y0 newx1 = Some o
     else _rowclass = _rowclass /\
          newx1 = fst (inherit_all m10
                         (Pair (KNpInt 3) (KSlice (Some 2) (Some 8) None))) /\
          self1 = m10) /\
    (column_is_slice (Pair (KNpInt 3) (KSlice (Some 2) (Some 8) None)) = false ->
     sslots (mkSeries [32; 33; 34; 35; 36; 37] "strain"
               (mkSlots (Some (mkQuantity 4 "s")) (Some (mkQuantity 2 "s")) None))
     = newx1 /\ m10 = self1).
Proof.
  assert (H : __getitem__ inherit_all
                (Pair (KNpInt 3) (KSlice (Some 2) (Some 8) None)) m10
              = (inr (RSeries _rowclass
                        (mkSeries [32; 33; 34; 35; 36; 37] "strain"
                           (mkSlots (Some (mkQuantity 4 "s"))
                                    (Some (mkQuantity 2 "s")) None))),
                 m10))
    by reflexivity.
  split; [exact H|].
  exact (cross_axis_assignment_only_for_float_or_int inherit_all _ _ _ _ _ H).
Defined.

(** The same slice with a Python int as the row component is viewed as
    [_columnclass]. *)
Example python_int_row_is_column_class :
  fst (__getitem__ inherit_all (Pair (KInt 3) (KSlice (Some 2) (Some 8) None)) m10)
  = inr (RSeries _columnclass
           (mkSeries [32; 33; 34; 35; 36; 37] "strain"
              (mkSlots (Some (mkQuantity 4 "s")) (Some (mkQuantity 5 "Hz")) None))).
Proof. reflexivity. Qed.

(** ** Coordinate lookup *)

Section LookupProperties.

Variable inherited : Array2D -> Item -> Slots * Slots.

(** On exact grid coordinates the element is returned, tagged with the
    unit of the values: row 2, column (20 - 10) / 5 = 2 of [m54]. *)
Example value_at_grid_point :
  fst (value_at inherited (PyNum 2) (PyNum 20) m54)
  = inr (RQuantity (mkQuantity 22 "strain")).
Proof. reflexivity. Qed.

(** C4, on the matrix [m54] with rows at 0..4 and columns at 10, 15, 20,
    25.  A row coordinate that is not on the grid raises [IndexError]; its
    message names the index that was searched, but it is the unformatted
    template, the same for the coordinates 7 and 9, and contains neither
    of them.  Likewise for a column coordinate off the grid. *)
Theorem value_at_error_omits_the_value :
  fst (value_at inherited (PyNum 7) (PyNum 10) m54)
  = inl (IndexError "Value %r not found in array xindex") /\
  fst (value_at inherited (PyNum 9) (PyNum 10) m54)
  = inl (IndexError "Value %r not found in array xindex") /\
  fst (value_at inherited (PyNum 2) (PyNum 12) m54)
  = inl (IndexError "Value %r not found in array yindex") /\
  occurs "xindex" "Value %r not found in array xindex" = true /\
  occurs "7" "Value %r not found in array xindex" = false /\
  occurs "9" "Value %r not found in array xindex" = false /\
  occurs "12" "Value %r not found in array yindex" = false.
Proof. repeat split. Qed.

End LookupProperties.

(** ** Further facts about the axis state *)

(** A read of the index caches it; when it had to be materialized, the
    origin is set afterwards. *)
Lemma yindex_get_caches (n : nat) (s s' : Slots) (ix : Index) :
  yindex_get n s = (inr ix, s') ->
  _yindex s' = Some ix /\ (_yindex s = None -> exists o, _y0 s' = Some o).
Proof.
  destruct s as [so sd si]. unfold yindex_get, y0_get, dy_get.
  cbv beta iota delta [bind get ret modify lift raise _yindex _y0 _dy
                       set_y0 set_dy set_yindex].
  destruct si as [i|].
  - intros H. injection H as <- <-. split; [reflexivity | discriminate].
  - destruct so as [o|], sd as [d|];
      cbv beta iota delta [bind get ret modify lift raise _yindex _y0 _dy
                           set_y0 set_dy set_yindex];
      match goal with
      | |- context [q_add_arange ?a n ?b] =>
          destruct (q_add_arange a n b) as [e|i]
      end;
      intros H; try discriminate H; injection H as <- <-;
      (split; [reflexivity | intros _; eexists; reflexivity]).
Qed.

(** The step setter refuses every bare number on an axis whose unit is not
    the dimensionless one. *)
Lemma dy_set_bare_fails (z : Z) (s : Slots) :
  yunit s <> dimensionless ->
  exists msg, dy_set (PyNum z) s = (inl (UnitConversionError msg), s).
Proof.
  intros Hu. unfold dy_set, Quantity_, to. simpl qunit.
  cbv beta iota delta [bind get lift].
  destruct (unit_eqb dimensionless (yunit s)) eqn:E.
  - apply unit_eqb_eq in E. congruence.
  - eexists. reflexivity.
Qed.

(** The span of a regular axis at origin 0 with step 1 and extent 10 is
    [0, 10); with the step set to 2 it is [0, 20). *)
Example yspan_follows_step :
  fst (yspan 10 unit_axis) = inr (0, 10) /\
  fst (yspan 10 (snd (dy_set (PyNum 2) unit_axis))) = inr (0, 20).
Proof. split; reflexivity. Qed.

(** The span of an axis whose regular index is cached. *)
Example yspan_cached_regular :
  fst (yspan 3 cached_axis) = inr (100, 115).
Proof. reflexivity. Qed.

(** On a single-column matrix whose index has been read, [yspan] fails on
    the spacing it computes and does not use: [value[-2]] is out of
    bounds. *)
Example yspan_single_sample_raises :
  fst (yspan 1 (snd (yindex_get 1 unit_axis)))
  = inl (IndexError "index out of bounds").
Proof. reflexivity. Qed.

(** [cached_axis] is [hertz_axis_regular] after a read of its index. *)
Example cached_axis_reached :
  snd (yindex_get 3 hertz_axis_regular) = cached_axis.
Proof. reflexivity. Qed.

(** * Further properties *)

(** ** Defaults and construction from scalars *)

Lemma regular_coordinates_0_1 (n : nat) : regular_coordinates 0 1 n = arange n.
Proof.
  unfold regular_coordinates. rewrite <- (map_id (arange n)) at 2.
  apply map_ext. intros i. lia.
Qed.

(** X1.  An instance on which no y metadata is given is left untouched by
    the constructor; read afterwards, its origin is 0 and its step 1 in the
    dimensionless unit, its index is [arange(n)] and its span [0, n). *)
Theorem untouched_axis_defaults :
  forall (n : nat),
    __new__ PyNone PyNone None fresh = (inr tt, fresh) /\
    fst (y0_get fresh) = inr (mkQuantity 0 dimensionless) /\
    fst (dy_get fresh) = inr (mkQuantity 1 dimensionless) /\
    fst (yindex_get n fresh) = inr (mkIndex (arange n) dimensionless) /\
    fst (yspan n fresh) = inr (0, Z.of_nat n).
Proof.
  intros n. repeat split.
  - unfold yindex_get, y0_get, dy_get, q_add_arange, fresh, yunit.
    py_run. simpl. py_run. simpl.
    do 2 f_equal. apply regular_coordinates_0_1.
  - unfold yspan, y0_get, dy_get, fresh, yunit.
    py_run. cbn [_yindex _y0 _dy set_y0 set_dy qunit qvalue].
    py_run. cbn [_yindex _y0 _dy set_y0 set_dy qunit qvalue fst].
    replace (0 + Z.of_nat n * 1) with (Z.of_nat n) by lia.
    unfold Segment_.
    destruct (Z.leb_spec 0 (Z.of_nat n)); [reflexivity | lia].
Qed.

(** X2.  Construction from an origin and a step, on an instance without a
    cached index: the call succeeds when [Quantity(y0, yunit)] converts,
    and leaves the axis in the regular state, origin and step both in the
    unit of [dy] if it is a quantity, else of [y0] if it is one, else
    dimensionless. *)
Theorem new_from_origin_and_step :
  forall (s : Slots) (y0 dy : PyVal),
    y0 <> PyNone -> dy <> PyNone -> convertible y0 dy ->
    _yindex s = None ->
    exists s',
      __new__ y0 dy None s = (inr tt, s') /\
      RegularState s' (mkQuantity (number_of y0) (new_yunit y0 dy))
                      (mkQuantity (number_of dy) (new_yunit y0 dy)).
Proof.
  intros [so sd si] y0 dy Hy0 Hdy Hconv Hix. simpl in Hix. subst si.
  unfold __new__, new_yunit, RegularState.
  destruct dy as [|zd|[vd ud]], y0 as [|zo|[vo uo]]; try congruence;
    simpl in Hconv; subst; simpl Quantity_; simpl qunit; py_run;
    eexists; (split; [reflexivity|]); simpl;
    repeat split;
    repeat match goal with
           | |- context [survives ?a ?b] => destruct (survives a b)
           end;
    reflexivity.
Qed.

Lemma new_from_origin_and_step_witness :
  PyNum 100 <> PyNone /\ PyQuantity (mkQuantity 5 "Hz") <> PyNone /\
  convertible (PyNum 100) (PyQuantity (mkQuantity 5 "Hz")) /\
  _yindex fresh = None /\
  exists s',
    __new__ (PyNum 100) (PyQuantity (mkQuantity 5 "Hz")) None fresh = (inr tt, s') /\
    RegularState s'
      (mkQuantity (number_of (PyNum 100))
                  (new_yunit (PyNum 100) (PyQuantity (mkQuantity 5 "Hz"))))
      (mkQuantity (number_of (PyQuantity (mkQuantity 5 "Hz")))
                  (new_yunit (PyNum 100) (PyQuantity (mkQuantity 5 "Hz")))).
Proof.
  assert (H1 : PyNum 100 <> PyNone) by discriminate.
  assert (H2 : PyQuantity (mkQuantity 5 "Hz") <> PyNone) by discriminate.
  assert (H3 : convertible (PyNum 100) (PyQuantity (mkQuantity 5 "Hz")))
    by exact I.
  assert (H4 : _yindex fresh = None) by reflexivity.
  repeat (split; [assumption|]).
  exact (new_from_origin_and_step fresh (PyNum 100)
           (PyQuantity (mkQuantity 5 "Hz")) H1 H2 H3 H4).
Defined.

(** ** Deleting and re-deriving the fields of an axis *)

Lemma explicit_slots_regular (ix : Index) :
  regular ix = true ->
  explicit_slots ix
  = mkSlots (Some (mkQuantity (nth 0 (ivalue ix) 0) (iunit ix)))
            (Some (first_difference ix)) (Some ix).
Proof. intros H. unfold explicit_slots. now rewrite H. Qed.

(** X4.  After a regular index of two or more elements has been set,
    deleting the step ([dy = None]) loses nothing: the next read of the
    step derives [index[1] - index[0]] from the cached index and the axis
    is back in the state the index setter left. *)
Theorem step_recovered_from_cached_index :
  forall (arr : PyArr) (s : Slots),
    regular (Index_ arr) = true ->
    (2 <= List.length (ivalue (Index_ arr)))%nat ->
    exists s1 s2,
      yindex_set (Some arr) s = (inr tt, s1) /\
      dy_set PyNone s1 = (inr tt, s2) /\ _dy s2 = None /\
      dy_get s2 = (inr (first_difference (Index_ arr)), s1).
Proof.
  intros arr s Hreg Hlen.
  rewrite yindex_set_arr by exact Hlen.
  rewrite explicit_slots_regular by exact Hreg.
  eexists. eexists. split; [reflexivity|]. split; [reflexivity|].
  split; [reflexivity|].
  unfold first_difference.
  destruct (Index_ arr) as [l u].
  destruct l as [|a [|b t]]; simpl in Hlen; try lia.
  unfold dy_get.
  cbv beta iota delta [bind get set_dy dy_del modify _dy _yindex _y0].
  rewrite Hreg. cbv beta iota delta [negb bind lift ivalue].
  rewrite py_nth_1. cbv beta iota. rewrite py_nth_0.
  reflexivity.
Qed.

Lemma step_recovered_from_cached_index_witness :
  regular (Index_ plain_regular) = true /\
  (2 <= List.length (ivalue (Index_ plain_regular)))%nat /\
  exists s1 s2,
    yindex_set (Some plain_regular) hertz_axis = (inr tt, s1) /\
    dy_set PyNone s1 = (inr tt, s2) /\ _dy s2 = None /\
    dy_get s2 = (inr (first_difference (Index_ plain_regular)), s1).
Proof.
  assert (H1 : regular (Index_ plain_regular) = true) by reflexivity.
  assert (H2 : (2 <= List.length (ivalue (Index_ plain_regular)))%nat)
    by (simpl; lia).
  split; [exact H1|]. split; [exact H2|].
  exact (step_recovered_from_cached_index plain_regular hertz_axis H1 H2).
Defined.

(** X6.  Deleting the origin ([y0 = None]) does not touch the cached
    index: the next read of the origin gives the default 0 in the unit of
    the axis, while the index read after it is still the cached one,
    whatever its first element. *)
Theorem clearing_origin_keeps_cached_index :
  forall (n : nat) (s : Slots) (ix : Index),
    _yindex s = Some ix ->
    exists s1 s2,
      y0_set PyNone s = (inr tt, s1) /\
      y0_get s1 = (inr (mkQuantity 0 (yunit s1)), s2) /\
      yindex_get n s2 = (inr ix, s2).
Proof.
  intros n [so sd si] ix Hix. simpl in Hix. subst si.
  exists (mkSlots None sd (Some ix)).
  exists (mkSlots (Some (mkQuantity 0 (yunit (mkSlots None sd (Some ix)))))
                  sd (Some ix)).
  split; [reflexivity|]. split; reflexivity.
Qed.

Lemma clearing_origin_keeps_cached_index_witness :
  _yindex cached_axis = Some (mkIndex [100; 105; 110] "Hz") /\
  exists s1 s2,
    y0_set PyNone cached_axis = (inr tt, s1) /\
    y0_get s1 = (inr (mkQuantity 0 (yunit s1)), s2) /\
    yindex_get 3 s2 = (inr (mkIndex [100; 105; 110] "Hz"), s2).
Proof.
  assert (H : _yindex cached_axis = Some (mkIndex [100; 105; 110] "Hz"))
    by reflexivity.
  split; [exact H|].
  exact (clearing_origin_keeps_cached_index 3 cached_axis
           (mkIndex [100; 105; 110] "Hz") H).
Defined.

(** ** The span and the cached index *)

(** X9.  With a cached index of fewer than two elements [yspan] raises
    [IndexError] and leaves the object as it was: the spacing
    [value[-1] - value[-2]] is subscripted before anything else. *)
Theorem span_of_short_cached_index_raises :
  forall (n : nat) (s : Slots) (ix : Index),
    _yindex s = Some ix -> (List.length (ivalue ix) < 2)%nat ->
    exists msg, yspan n s = (inl (IndexError msg), s).
Proof.
  intros n [so sd si] [l u] Hix Hlen. simpl in Hix, Hlen. subst.
  destruct l as [|a [|b t]]; simpl in Hlen; try lia;
    eexists; reflexivity.
Qed.

Lemma span_of_short_cached_index_raises_witness :
  _yindex (mkSlots (Some (mkQuantity 0 "")) (Some (mkQuantity 1 ""))
                   (Some (mkIndex [0] "")))
  = Some (mkIndex [0] "") /\
  (List.length (ivalue (mkIndex [0%Z] "")) < 2)%nat /\
  exists msg,
    yspan 1 (mkSlots (Some (mkQuantity 0 "")) (Some (mkQuantity 1 ""))
                     (Some (mkIndex [0] "")))
    = (inl (IndexError msg),
       mkSlots (Some (mkQuantity 0 "")) (Some (mkQuantity 1 ""))
               (Some (mkIndex [0] ""))).
Proof.
  assert (H1 : _yindex (mkSlots (Some (mkQuantity 0 "")) (Some (mkQuantity 1 ""))
                                (Some (mkIndex [0] "")))
               = Some (mkIndex [0] "")) by reflexivity.
  assert (H2 : (List.length (ivalue (mkIndex [0%Z] "")) < 2)%nat)
    by (simpl; lia).
  split; [exact H1|]. split; [exact H2|].
  exact (span_of_short_cached_index_raises 1 _ _ H1 H2).
Defined.

(** ** Scalars of the buffer *)

Lemma int_position_in_bounds (n : nat) (i : Z) :
  - Z.of_nat n <= i < Z.of_nat n ->
  int_position n i = inr (Z.to_nat (i mod Z.of_nat n)).
Proof.
  intros Hi. unfold int_position.
  destruct (Z.ltb_spec i 0).
  - assert (E : i + Z.of_nat n = i mod Z.of_nat n)
      by (apply (Z.mod_unique _ _ (-1)); lia).
    rewrite E.
    destruct (Z.leb_spec 0 (i mod Z.of_nat n)); [|lia].
    destruct (Z.ltb_spec (i mod Z.of_nat n) (Z.of_nat n)); [reflexivity | lia].
  - rewrite Z.mod_small by lia.
    destruct (Z.leb_spec 0 i); [|lia].
    destruct (Z.ltb_spec i (Z.of_nat n)); [reflexivity | lia].
Qed.

Lemma int_position_out_of_bounds (n : nat) (i : Z) :
  ~ (- Z.of_nat n <= i < Z.of_nat n) ->
  int_position n i = inl (IndexError "index out of bounds").
Proof.
  intros Hi. unfold int_position.
  destruct (Z.ltb_spec i 0).
  - destruct (Z.leb_spec 0 (i + Z.of_nat n)); [|reflexivity].
    destruct (Z.ltb_spec (i + Z.of_nat n) (Z.of_nat n)); [lia | reflexivity].
  - destruct (Z.leb_spec 0 i); [|lia].
    destruct (Z.ltb_spec i (Z.of_nat n)); [lia | reflexivity].
Qed.

Lemma select_integer (n : nat) (k : Key) (i : Z) :
  integer_key k i ->
  select n k = match int_position n i with
               | inl e => inl e
               | inr p => inr (One p)
               end.
Proof. intros [-> | ->]; reflexivity. Qed.

Section ScalarProperties.

Variable inherited : Array2D -> Item -> Slots * Slots.

Lemma getitem_element (self : Array2D) (kx ky : Key) (r c : nat) :
  select (fst (shape self)) kx = inr (One r) ->
  select (snd (shape self)) ky = inr (One c) ->
  __getitem__ inherited (Pair kx ky) self
  = (inr (RQuantity (mkQuantity (element self r c) (unit_ self))), self).
Proof.
  intros Hx Hy. unfold __getitem__, ndarray_getitem.
  cbv beta iota zeta delta [bind get lift].
  rewrite Hx, Hy. reflexivity.
Qed.

(** X10.  Indexing with a pair of integers inside the bounds, negative
    ones counting from the end, gives the element of the buffer as a
    quantity in the unit of the values.  Neither the axes of the matrix nor
    the metadata of the sliced object are read, and the matrix is left as
    it was. *)
Theorem integer_pair_gives_element :
  forall (self : Array2D) (kx ky : Key) (i j : Z),
    integer_key kx i -> integer_key ky j ->
    - Z.of_nat (fst (shape self)) <= i < Z.of_nat (fst (shape self)) ->
    - Z.of_nat (snd (shape self)) <= j < Z.of_nat (snd (shape self)) ->
    __getitem__ inherited (Pair kx ky) self
    = (inr (RQuantity
              (mkQuantity
                 (element self (Z.to_nat (i mod Z.of_nat (fst (shape self))))
                               (Z.to_nat (j mod Z.of_nat (snd (shape self)))))
                 (unit_ self))),
       self).
Proof.
  intros self kx ky i j Hkx Hky Hi Hj.
  apply getitem_element.
  - rewrite (select_integer _ _ _ Hkx), int_position_in_bounds by exact Hi.
    reflexivity.
  - rewrite (select_integer _ _ _ Hky), int_position_in_bounds by exact Hj.
    reflexivity.
Qed.

(** X11.  An integer row component outside the bounds makes
    [__getitem__] raise the [IndexError] of the buffer, whatever the column
    component, before any metadata is read; the matrix is left as it
    was. *)
Theorem row_out_of_bounds_raises :
  forall (self : Array2D) (item : Item) (i : Z),
    integer_key (row_key item) i ->
    ~ (- Z.of_nat (fst (shape self)) <= i < Z.of_nat (fst (shape self))) ->
    exists msg, __getitem__ inherited item self = (inl (IndexError msg), self).
Proof.
  intros self item i Hk Hi.
  unfold __getitem__, ndarray_getitem.
  cbv beta iota zeta delta [bind get lift].
  destruct item as [x|x y]; simpl in Hk;
    rewrite (select_integer _ _ _ Hk), int_position_out_of_bounds by exact Hi;
    eexists; reflexivity.
Qed.

End ScalarProperties.

Lemma integer_pair_gives_element_witness :
  integer_key (KInt (-1)) (-1) /\ integer_key (KNpInt 2) 2 /\
  - Z.of_nat (fst (shape m54)) <= -1 < Z.of_nat (fst (shape m54)) /\
  - Z.of_nat (snd (shape m54)) <= 2 < Z.of_nat (snd (shape m54)) /\
  __getitem__ inherit_all (Pair (KInt (-1)) (KNpInt 2)) m54
  = (inr (RQuantity
            (mkQuantity
               (element m54 (Z.to_nat (-1 mod Z.of_nat (fst (shape m54))))
                            (Z.to_nat (2 mod Z.of_nat (snd (shape m54)))))
               (unit_ m54))),
     m54).
Proof.
  assert (H1 : integer_key (KInt (-1)) (-1)) by (left; reflexivity).
  assert (H2 : integer_key (KNpInt 2) 2) by (right; reflexivity).
  assert (H3 : - Z.of_nat (fst (shape m54)) <= -1 < Z.of_nat (fst (shape m54)))
    by (simpl; lia).
  assert (H4 : - Z.of_nat (snd (shape m54)) <= 2 < Z.of_nat (snd (shape m54)))
    by (simpl; lia).
  repeat (split; [assumption|]).
  exact (integer_pair_gives_element inherit_all m54 _ _ _ _ H1 H2 H3 H4).
Defined.

Lemma row_out_of_bounds_raises_witness :
  integer_key (row_key (Pair (KInt 5) (KSlice None None None))) 5 /\
  ~ (- Z.of_nat (fst (shape m54)) <= 5 < Z.of_nat (fst (shape m54))) /\
  exists msg,
    __getitem__ inherit_all (Pair (KInt 5) (KSlice None None None)) m54
    = (inl (IndexError msg), m54).
Proof.
  assert (H1 : integer_key (row_key (Pair (KInt 5) (KSlice None None None))) 5)
    by (left; reflexivity).
  assert (H2 : ~ (- Z.of_nat (fst (shape m54)) <= 5 < Z.of_nat (fst (shape m54))))
    by (simpl; lia).
  split; [exact H1|]. split; [exact H2|].
  exact (row_out_of_bounds_raises inherit_all m54 _ 5 H1 H2).
Defined.

(** ** Coordinate lookup on a regular grid *)

(** The position [first_match] finds is inside the sequence and holds the
    value searched. *)
Lemma first_match_found (v : Z) (l : list Z) :
  forall i, first_match v l = Some i ->
            0 <= i < Z.of_nat (List.length l) /\ nth (Z.to_nat i) l 0 = v.
Proof.
  induction l as [|w l IH]; intros i H; [discriminate H|].
  cbn [first_match] in H. cbn [List.length]. rewrite Nat2Z.inj_succ.
  destruct (Z.eqb_spec w v) as [E|_].
  - injection H as <-. split; [lia | exact E].
  - destruct (first_match v l) as [j|]; [|discriminate H].
    injection H as <-. destruct (IH j eq_refl) as [Hj Hn].
    split; [lia|].
    replace (Z.to_nat (j + 1)) with (S (Z.to_nat j)) by lia. exact Hn.
Qed.

Lemma first_match_absent (v : Z) (l : list Z) :
  ~ In v l -> first_match v l = None.
Proof.
  induction l as [|w l IH]; [reflexivity|].
  intros H. cbn [first_match].
  destruct (Z.eqb_spec w v) as [E|_].
  - exfalso. apply H. left. exact E.
  - rewrite IH; [reflexivity|]. intros Hin. apply H. right. exact Hin.
Qed.

Section GridLookup.

Variable inherited : Array2D -> Item -> Slots * Slots.

(** X12.  On a matrix whose two axes are in the regular state, [value_at]
    at bare coordinates that occur in the materialized indices returns the
    element of the buffer at the first position of the x index equal to
    the row coordinate and the first position of the y index equal to the
    column coordinate, as a quantity in the unit of the values; those
    positions are inside the shape, and both indices are cached on the
    matrix by then. *)
Theorem value_at_returns_first_match :
  forall (self : Array2D) (xo xd yo yd : Quantity) (x y i j : Z),
    RegularState (xslots self) xo xd -> RegularState (yslots self) yo yd ->
    first_match x (regular_coordinates (qvalue xo) (qvalue xd) (fst (shape self)))
    = Some i ->
    first_match y (regular_coordinates (qvalue yo) (qvalue yd) (snd (shape self)))
    = Some j ->
    value_at inherited (PyNum x) (PyNum y) self
    = (inr (RQuantity (mkQuantity (element self (Z.to_nat i) (Z.to_nat j))
                                  (unit_ self))),
       with_slots self
         (set_yindex (Some (mkIndex (regular_coordinates (qvalue xo) (qvalue xd)
                                       (fst (shape self))) (qunit xo)))
                     (xslots self))
         (set_yindex (Some (mkIndex (regular_coordinates (qvalue yo) (qvalue yd)
                                       (snd (shape self))) (qunit yo)))
                     (yslots self))) /\
    0 <= i < Z.of_nat (fst (shape self)) /\
    0 <= j < Z.of_nat (snd (shape self)).
Proof.
  intros [v [nr nc] u xs ys] xo xd yo yd x y i j Hx Hy Hi Hj.
  simpl in Hx, Hy, Hi, Hj.
  destruct (first_match_found _ _ _ Hi) as [Hib _].
  destruct (first_match_found _ _ _ Hj) as [Hjb _].
  rewrite regular_coordinates_length in Hib, Hjb.
  split; [|simpl; split; assumption].
  unfold value_at, with_slots, on_x, on_y, xindex_get.
  cbv beta iota zeta delta [bind get lift ret raise xslots yslots value shape
                            unit_ fst snd Quantity_].
  rewrite (yindex_get_regular nr xs xo xd Hx). cbv beta iota zeta.
  rewrite (yindex_get_regular nc ys yo yd Hy). cbv beta iota zeta.
  rewrite (yindex_get_cached nr (set_yindex _ xs) _ eq_refl).
  cbv beta iota zeta delta [ivalue]. cbn [qvalue].
  rewrite Hi. cbv beta iota zeta.
  rewrite (yindex_get_cached nc (set_yindex _ ys) _ eq_refl).
  cbv beta iota zeta delta [ivalue]. cbn [qvalue].
  rewrite Hj. cbv beta iota zeta.
  rewrite (getitem_element inherited _ _ _ (Z.to_nat i) (Z.to_nat j)).
  - reflexivity.
  - simpl. rewrite int_position_in_bounds by lia.
    now rewrite Z.mod_small by lia.
  - simpl. rewrite int_position_in_bounds by lia.
    now rewrite Z.mod_small by lia.
Qed.

(** X13.  When the row coordinate, a bare number, does not occur in the
    materialized x index, [value_at] raises [IndexError] with the message
    of the x lookup, whatever the column coordinate: the rows are searched
    first. *)
Theorem value_at_row_coordinate_absent :
  forall (self : Array2D) (xo xd yo yd : Quantity) (x y : Z),
    RegularState (xslots self) xo xd -> RegularState (yslots self) yo yd ->
    ~ In x (regular_coordinates (qvalue xo) (qvalue xd) (fst (shape self))) ->
    fst (value_at inherited (PyNum x) (PyNum y) self)
    = inl (IndexError "Value %r not found in array xindex").
Proof.
  intros [v [nr nc] u xs ys] xo xd yo yd x y Hx Hy Hin.
  simpl in Hx, Hy, Hin.
  unfold value_at, on_x, on_y, xindex_get.
  cbv beta iota zeta delta [bind get lift ret raise xslots yslots value shape
                            unit_ fst snd Quantity_].
  rewrite (yindex_get_regular nr xs xo xd Hx). cbv beta iota zeta.
  rewrite (yindex_get_regular nc ys yo yd Hy). cbv beta iota zeta.
  rewrite (yindex_get_cached nr (set_yindex _ xs) _ eq_refl).
  cbv beta iota zeta delta [ivalue]. cbn [qvalue].
  rewrite (first_match_absent _ _ Hin). reflexivity.
Qed.

End GridLookup.

Lemma value_at_returns_first_match_witness :
  RegularState (xslots m54) (mkQuantity 0 "") (mkQuantity 1 "") /\
  RegularState (yslots m54) (mkQuantity 10 "") (mkQuantity 5 "") /\
  first_match 3 (regular_coordinates 0 1 (fst (shape m54))) = Some 3 /\
  first_match 20 (regular_coordinates 10 5 (snd (shape m54))) = Some 2 /\
  value_at inherit_all (PyNum 3) (PyNum 20) m54
  = (inr (RQuantity (mkQuantity (element m54 (Z.to_nat 3) (Z.to_nat 2))
                                (unit_ m54))),
     with_slots m54
       (set_yindex (Some (mkIndex (regular_coordinates 0 1 (fst (shape m54))) ""))
                   (xslots m54))
       (set_yindex (Some (mkIndex (regular_coordinates 10 5 (snd (shape m54))) ""))
                   (yslots m54))) /\
  0 <= 3 < Z.of_nat (fst (shape m54)) /\
  0 <= 2 < Z.of_nat (snd (shape m54)).
Proof.
  assert (H1 : RegularState (xslots m54) (mkQuantity 0 "") (mkQuantity 1 ""))
    by (repeat split; reflexivity).
  assert (H2 : RegularState (yslots m54) (mkQuantity 10 "") (mkQuantity 5 ""))
    by (repeat split; reflexivity).
  assert (H3 : first_match 3 (regular_coordinates 0 1 (fst (shape m54))) = Some 3)
    by reflexivity.
  assert (H4 : first_match 20 (regular_coordinates 10 5 (snd (shape m54))) = Some 2)
    by reflexivity.
  split; [exact H1|]. split; [exact H2|]. split; [exact H3|]. split; [exact H4|].
  exact (value_at_returns_first_match inherit_all m54
           (mkQuantity 0 "") (mkQuantity 1 "") (mkQuantity 10 "") (mkQuantity 5 "")
           3 20 3 2 H1 H2 H3 H4).
Defined.

Lemma value_at_row_coordinate_absent_witness :
  RegularState (xslots m54) (mkQuantity 0 "") (mkQuantity 1 "") /\
  RegularState (yslots m54) (mkQuantity 10 "") (mkQuantity 5 "") /\
  ~ In 7 (regular_coordinates 0 1 (fst (shape m54))) /\
  fst (value_at inherit_all (PyNum 7) (PyNum 12) m54)
  = inl (IndexError "Value %r not found in array xindex").
Proof.
  assert (H1 : RegularState (xslots m54) (mkQuantity 0 "") (mkQuantity 1 ""))
    by (repeat split; reflexivity).
  assert (H2 : RegularState (yslots m54) (mkQuantity 10 "") (mkQuantity 5 ""))
    by (repeat split; reflexivity).
  assert (H3 : ~ In 7 (regular_coordinates 0 1 (fst (shape m54))))
    by (simpl; lia).
  repeat (split; [assumption|]).
  exact (value_at_row_coordinate_absent inherit_all m54
           (mkQuantity 0 "") (mkQuantity 1 "") (mkQuantity 10 "") (mkQuantity 5 "")
           7 12 H1 H2 H3).
Defined.

(** ** Slices of rank two and rows *)

(** The y range update run on the new matrix, whose y slots are in the
    regular state: it is computed from the origin and the step of the new
    matrix itself. *)
Lemma range_update_on_new (S : Type) (self : S) (start step : option Z)
      (newy : Slots) (o d : Quantity) :
  RegularState newy o d ->
  on_new
    ((match truthy start with
      | Some k =>
          o <~ y0_get ;;
          d <~ dy_get ;;
          v <~ lift (q_add o (q_scale k d)) ;;
          y0_set (PyQuantity v)
      | None => ret tt
      end) ;;;
     (match truthy step with
      | Some k =>
          d <~ dy_get ;;
          dy_set (PyQuantity (q_scale k d))
      | None => ret tt
      end)) newy self
  = (inr (ranged newy o d start step), self).
Proof.
  intros (Ho & Hd & Hix & Hu).
  destruct newy as [yo yd yi]. simpl in Ho, Hd, Hix. subst.
  destruct o as [vo uo], d as [vd ud]. simpl in Hu. subst.
  unfold ranged, on_new, x0_set, dx_set.
  destruct (truthy start) as [k|], (truthy step) as [j|];
    unfold y0_get, dy_get, q_add, q_scale;
    cbv beta iota delta [bind lift ret modify get raise _dy _y0 qunit qvalue];
    rewrite ?to_mk;
    cbv beta iota;
    rewrite ?y0_set_quantity;
    cbv beta iota delta [bind lift ret modify get raise _dy _y0 qunit qvalue];
    rewrite ?dy_set_quantity;
    reflexivity.
Qed.

Lemma slice_positions_all (n : nat) :
  slice_positions n None None None = inr (seq 0 n).
Proof.
  unfold slice_positions, slice_indices. cbn [Z.eqb Z.ltb Z.compare].
  cbv beta iota zeta.
  f_equal.
  destruct n as [|n]; [reflexivity|].
  replace (if 0 <? Z.of_nat (S n) then (Z.of_nat (S n) - 0 - 1) / 1 + 1 else 0)
    with (Z.of_nat (S n))
    by (destruct (Z.ltb_spec 0 (Z.of_nat (S n))); [rewrite Z.div_1_r|]; lia).
  rewrite Nat2Z.id. rewrite <- (map_id (seq 0 (S n))) at 2.
  apply map_ext. intros k. lia.
Qed.

Section RankTwoAndRows.

Variable inherited : Array2D -> Item -> Slots * Slots.

(** X14.  When the buffer slice is two-dimensional, the column component
    is a slice and the matrix has no cached y index, the result is a
    matrix with the x slots it inherited and the range applied to its own
    y origin and step: [y0 + start * dy] and [dy * step], each only when
    [start], resp. [step], is neither [None] nor 0.  The source matrix is
    left as it was. *)
Theorem column_range_of_matrix :
  forall (self : Array2D) (kx : Key) (start stop step : option Z)
         (rows : list (list Z)) (shp : nat * nat) (o d : Quantity),
    ndarray_getitem (value self) (shape self) (Pair kx (KSlice start stop step))
    = inr (Nd2 rows shp) ->
    _yindex (yslots self) = None ->
    RegularState (snd (inherited self (Pair kx (KSlice start stop step)))) o d ->
    __getitem__ inherited (Pair kx (KSlice start stop step)) self
    = (inr (RArray2D
              (mkArray2D rows shp (unit_ self)
                 (fst (inherited self (Pair kx (KSlice start stop step))))
                 (ranged (snd (inherited self (Pair kx (KSlice start stop step))))
                         o d start step))),
       self).
Proof.
  intros self kx start stop step rows shp o d Hnd Hix Hreg.
  unfold __getitem__. cbv beta iota zeta delta [bind get lift].
  rewrite Hnd. cbv beta iota zeta.
  unfold update_array2d. unfold bind at 1. unfold bind at 1. unfold get at 1.
  rewrite Hix. rewrite (range_update_on_new _ _ _ _ _ o d Hreg).
  reflexivity.
Qed.

(** X15.  When the matrix has a cached y index and the column slice
    selects none of its elements, [__getitem__] raises [IndexError]
    although the buffer slice itself is a valid (empty) matrix: the index
    setter subscripts the first element of the empty index. *)
Theorem empty_column_range_with_cached_index_raises :
  forall (self : Array2D) (kx : Key) (start stop step : option Z)
         (rows : list (list Z)) (shp : nat * nat) (ix : Index),
    ndarray_getitem (value self) (shape self) (Pair kx (KSlice start stop step))
    = inr (Nd2 rows shp) ->
    _yindex (yslots self) = Some ix ->
    slice_positions (List.length (ivalue ix)) start stop step = inr [] ->
    exists msg,
      __getitem__ inherited (Pair kx (KSlice start stop step)) self
      = (inl (IndexError msg), self).
Proof.
  intros [v sh u xs ys] kx start stop step rows shp ix Hnd Hix Hpos.
  simpl in Hnd, Hix.
  unfold __getitem__. cbv beta iota zeta delta [bind get lift value shape].
  rewrite Hnd. cbv beta iota zeta.
  unfold update_array2d, on_y.
  cbv beta iota zeta delta [bind get lift yslots xslots value shape unit_].
  rewrite Hix. rewrite (yindex_get_cached _ ys ix Hix).
  cbv beta iota zeta. unfold index_slice. rewrite Hpos.
  cbv beta iota zeta. destruct ys as [yo yd yi]. simpl in Hix. subst yi.
  eexists. reflexivity.
Qed.

(** X16.  On a matrix whose y axis has a cached irregular index and no
    step (the state the index setter leaves), taking a row with a Python
    int raises the irregular-axis [AttributeError]: the view assigns
    [new.dx = self.dy].  The matrix is left as it was. *)
Theorem row_of_irregular_matrix_raises :
  forall (self : Array2D) (item : Item) (l : list Z) (ix : Index),
    is_float_or_int (row_key item) = true ->
    ndarray_getitem (value self) (shape self) item = inr (Nd1 l) ->
    _dy (yslots self) = None -> _yindex (yslots self) = Some ix ->
    regular ix = false ->
    __getitem__ inherited item self
    = (inl (AttributeError
              "This series has an irregular y-axis index, so 'dy' is not well defined"),
       self).
Proof.
  intros [v sh u xs [yo yd yi]] item l ix Hx Hnd Hd Hix Hreg.
  simpl in Hnd, Hd, Hix. subst.
  unfold __getitem__. cbv beta iota zeta delta [bind get lift value shape].
  rewrite Hnd. cbv beta iota zeta.
  assert (Hview : forall newx,
             view_series (row_key item) newx
               (mkArray2D v sh u xs (mkSlots yo None (Some ix)))
             = (inl (AttributeError
                       "This series has an irregular y-axis index, so 'dy' is not well defined"),
                mkArray2D v sh u xs (mkSlots yo None (Some ix)))).
  { intros newx. unfold view_series. rewrite Hx. unfold on_y, dy_get.
    cbv beta iota zeta delta [bind get lift raise yslots xslots value shape
                              unit_ _dy _yindex].
    rewrite Hreg. reflexivity. }
  destruct item as [x|x y]; simpl in Hview; rewrite Hview; reflexivity.
Qed.

(** X17.  Indexing with a single Python int inside the bounds gives that
    row of the buffer as a Series of [_columnclass], whose step and origin
    are the step and the origin of the y axis of the matrix, when these are
    set; no range is applied, and the matrix is left as it was. *)
Theorem integer_row_takes_y_metadata :
  forall (self : Array2D) (i : Z) (o d : Quantity),
    - Z.of_nat (fst (shape self)) <= i < Z.of_nat (fst (shape self)) ->
    _y0 (yslots self) = Some o -> _dy (yslots self) = Some d ->
    exists slots,
      __getitem__ inherited (Single (KInt i)) self
      = (inr (RSeries _columnclass
                (mkSeries
                   (take 0 (nth (Z.to_nat (i mod Z.of_nat (fst (shape self))))
                                (value self) [])
                         (seq 0 (snd (shape self))))
                   (unit_ self) slots)),
         self) /\
      _y0 slots = Some o /\ _dy slots = Some d.
Proof.
  intros self i o d Hi Ho Hd.
  exists (crossed (fst (inherited self (Single (KInt i)))) o d).
  split.
  - unfold __getitem__, ndarray_getitem.
    cbv beta iota zeta delta [bind get lift select].
    rewrite int_position_in_bounds by exact Hi.
    rewrite slice_positions_all. cbv beta iota zeta.
    rewrite (view_series_column _ _ _ o d) by (try reflexivity; assumption).
    reflexivity.
  - unfold crossed, x0_set, dx_set.
    rewrite dy_set_quantity, y0_set_quantity. split; reflexivity.
Qed.

End RankTwoAndRows.

Lemma column_range_of_matrix_witness :
  ndarray_getitem (value m54) (shape m54) inner_block
  = inr (Nd2 [[11; 13]; [21; 23]] (2%nat, 2%nat)) /\
  _yindex (yslots m54) = None /\
  RegularState (snd (inherit_all m54 inner_block))
               (mkQuantity 10 "") (mkQuantity 5 "") /\
  __getitem__ inherit_all inner_block m54
  = (inr (RArray2D
            (mkArray2D [[11; 13]; [21; 23]] (2%nat, 2%nat) (unit_ m54)
               (fst (inherit_all m54 inner_block))
               (ranged (snd (inherit_all m54 inner_block))
                       (mkQuantity 10 "") (mkQuantity 5 "") (Some 1) (Some 2)))),
     m54).
Proof.
  assert (H1 : ndarray_getitem (value m54) (shape m54) inner_block
               = inr (Nd2 [[11; 13]; [21; 23]] (2%nat, 2%nat))) by reflexivity.
  assert (H2 : _yindex (yslots m54) = None) by reflexivity.
  assert (H3 : RegularState (snd (inherit_all m54 inner_block))
                 (mkQuantity 10 "") (mkQuantity 5 ""))
    by (repeat split; reflexivity).
  repeat (split; [assumption|]).
  exact (column_range_of_matrix inherit_all m54 _ _ _ _ _ _ _ _ H1 H2 H3).
Defined.

(** The y axis of the inner block of [m54] starts at 10 + 1 * 5 with the
    step 5 * 2. *)
Example inner_block_y_axis :
  ranged (yslots m54) (mkQuantity 10 "") (mkQuantity 5 "") (Some 1) (Some 2)
  = mkSlots (Some (mkQuantity 15 "")) (Some (mkQuantity 10 "")) None.
Proof. reflexivity. Qed.

Lemma empty_column_range_with_cached_index_raises_witness :
  ndarray_getitem (value m54_cached) (shape m54_cached) no_columns
  = inr (Nd2 [[]; []; []; []; []] (5%nat, 0%nat)) /\
  _yindex (yslots m54_cached) = Some (mkIndex [10; 15; 20; 25] "") /\
  slice_positions (List.length (ivalue (mkIndex [10; 15; 20; 25] "")))
                  (Some 2) (Some 2) None = inr [] /\
  exists msg,
    __getitem__ inherit_all no_columns m54_cached
    = (inl (IndexError msg), m54_cached).
Proof.
  assert (H1 : ndarray_getitem (value m54_cached) (shape m54_cached) no_columns
               = inr (Nd2 [[]; []; []; []; []] (5%nat, 0%nat))) by reflexivity.
  assert (H2 : _yindex (yslots m54_cached) = Some (mkIndex [10; 15; 20; 25] ""))
    by reflexivity.
  assert (H3 : slice_positions
                 (List.length (ivalue (mkIndex [10; 15; 20; 25] "")))
                 (Some 2) (Some 2) None = inr []) by reflexivity.
  repeat (split; [assumption|]).
  exact (empty_column_range_with_cached_index_raises inherit_all m54_cached
           _ _ _ _ _ _ _ H1 H2 H3).
Defined.

Lemma row_of_irregular_matrix_raises_witness :
  is_float_or_int (row_key (Single (KInt 1))) = true /\
  ndarray_getitem (value m23_irregular) (shape m23_irregular) (Single (KInt 1))
  = inr (Nd1 [10; 11; 12]) /\
  _dy (yslots m23_irregular) = None /\
  _yindex (yslots m23_irregular) = Some (mkIndex [0; 1; 3] "") /\
  regular (mkIndex [0; 1; 3] "") = false /\
  __getitem__ inherit_all (Single (KInt 1)) m23_irregular
  = (inl (AttributeError
            "This series has an irregular y-axis index, so 'dy' is not well defined"),
     m23_irregular).
Proof.
  assert (H1 : is_float_or_int (row_key (Single (KInt 1))) = true) by reflexivity.
  assert (H2 : ndarray_getitem (value m23_irregular) (shape m23_irregular)
                 (Single (KInt 1)) = inr (Nd1 [10; 11; 12])) by reflexivity.
  assert (H3 : _dy (yslots m23_irregular) = None) by reflexivity.
  assert (H4 : _yindex (yslots m23_irregular) = Some (mkIndex [0; 1; 3] ""))
    by reflexivity.
  assert (H5 : regular (mkIndex [0; 1; 3] "") = false) by reflexivity.
  repeat (split; [assumption|]).
  exact (row_of_irregular_matrix_raises inherit_all m23_irregular _ _ _
           H1 H2 H3 H4 H5).
Defined.

(** [m23_irregular] is [m23] after the index has been set. *)
Example m23_irregular_reached :
  snd (on_y (yindex_set (Some (PySeq [0; 1; 3]))) m23) = m23_irregular.
Proof. reflexivity. Qed.

Lemma integer_row_takes_y_metadata_witness :
  - Z.of_nat (fst (shape m54)) <= -1 < Z.of_nat (fst (shape m54)) /\
  _y0 (yslots m54) = Some (mkQuantity 10 "") /\
  _dy (yslots m54) = Some (mkQuantity 5 "") /\
  exists slots,
    __getitem__ inherit_all (Single (KInt (-1))) m54
    = (inr (RSeries _columnclass
              (mkSeries
                 (take 0 (nth (Z.to_nat (-1 mod Z.of_nat (fst (shape m54))))
                              (value m54) [])
                       (seq 0 (snd (shape m54))))
                 (unit_ m54) slots)),
       m54) /\
    _y0 slots = Some (mkQuantity 10 "") /\ _dy slots = Some (mkQuantity 5 "").
Proof.
  assert (H1 : - Z.of_nat (fst (shape m54)) <= -1 < Z.of_nat (fst (shape m54)))
    by (simpl; lia).
  assert (H2 : _y0 (yslots m54) = Some (mkQuantity 10 "")) by reflexivity.
  assert (H3 : _dy (yslots m54) = Some (mkQuantity 5 "")) by reflexivity.
  repeat (split; [assumption|]).
  exact (integer_row_takes_y_metadata inherit_all m54 (-1) _ _ H1 H2 H3).
Defined.

(** ** More on the setters *)

(** X18.  The step setter, given a quantity on an axis whose index is
    cached and whose origin, step and new step are all in one unit: the
    quantity is stored; if its value differs from that of the current step
    the cached index is deleted and the next read of the index gives
    [origin + i * new step]; if it equals the current step the cached
    index stays. *)
Theorem step_change_invalidates_cached_index :
  forall (n : nat) (s : Slots) (o d q : Quantity) (ix : Index),
    _y0 s = Some o -> _dy s = Some d -> _yindex s = Some ix ->
    qunit q = qunit o -> qunit d = qunit o ->
    exists s',
      dy_set (PyQuantity q) s = (inr tt, s') /\ _dy s' = Some q /\
      (qvalue q <> qvalue d ->
       _yindex s' = None /\
       exists s'',
         yindex_get n s'
         = (inr (mkIndex (regular_coordinates (qvalue o) (qvalue q) n) (qunit o)),
            s'')) /\
      (qvalue q = qvalue d -> _yindex s' = Some ix).
Proof.
  intros n s o d q ix Ho Hd Hix Hu Hdu.
  rewrite dy_set_quantity, Hd, Hix. cbn [survives].
  unfold q_ne. rewrite Hu, Hdu, unit_eqb_refl. cbn [andb].
  eexists. split; [reflexivity|]. split; [reflexivity|]. split.
  - intros Hne. destruct (Z.eqb_spec (qvalue q) (qvalue d)) as [E|_];
      [contradiction|]. cbn [negb _yindex]. split; [reflexivity|].
    eexists. apply (yindex_get_regular n _ o q). repeat split; assumption.
  - intros Heq. rewrite Heq, Z.eqb_refl. reflexivity.
Qed.

Lemma step_change_invalidates_cached_index_witness :
  _y0 cached_axis = Some (mkQuantity 100 "Hz") /\
  _dy cached_axis = Some (mkQuantity 5 "Hz") /\
  _yindex cached_axis = Some (mkIndex [100; 105; 110] "Hz") /\
  qunit (mkQuantity 2 "Hz") = qunit (mkQuantity 100 "Hz") /\
  qunit (mkQuantity 5 "Hz") = qunit (mkQuantity 100 "Hz") /\
  exists s',
    dy_set (PyQuantity (mkQuantity 2 "Hz")) cached_axis = (inr tt, s') /\
    _dy s' = Some (mkQuantity 2 "Hz") /\
    (2 <> 5 ->
     _yindex s' = None /\
     exists s'',
       yindex_get 3 s'
       = (inr (mkIndex (regular_coordinates 100 2 3) "Hz"), s'')) /\
    (2 = 5 -> _yindex s' = Some (mkIndex [100; 105; 110] "Hz")).
Proof.
  assert (H1 : _y0 cached_axis = Some (mkQuantity 100 "Hz")) by reflexivity.
  assert (H2 : _dy cached_axis = Some (mkQuantity 5 "Hz")) by reflexivity.
  assert (H3 : _yindex cached_axis = Some (mkIndex [100; 105; 110] "Hz"))
    by reflexivity.
  assert (H4 : qunit (mkQuantity 2 "Hz") = qunit (mkQuantity 100 "Hz"))
    by reflexivity.
  assert (H5 : qunit (mkQuantity 5 "Hz") = qunit (mkQuantity 100 "Hz"))
    by reflexivity.
  repeat (split; [assumption|]).
  exact (step_change_invalidates_cached_index 3 cached_axis _ _ _ _
           H1 H2 H3 H4 H5).
Defined.

(** X19.  An index given as a plain sequence (of two or more elements)
    makes the axis dimensionless, whatever its unit was: the sequence is
    wrapped in the default unit, and origin and step are taken from it. *)
Theorem plain_sequence_resets_unit :
  forall (l : list Z) (s : Slots),
    (2 <= List.length l)%nat ->
    exists s',
      yindex_set (Some (PySeq l)) s = (inr tt, s') /\
      yunit s' = dimensionless /\
      _yindex s' = Some (mkIndex l dimensionless) /\
      fst (y0_get s') = inr (mkQuantity (nth 0 l 0) dimensionless).
Proof.
  intros l s Hlen.
  rewrite (yindex_set_arr (PySeq l)) by exact Hlen.
  eexists. split; [reflexivity|].
  unfold explicit_slots, yunit. simpl Index_.
  destruct (regular (mkIndex l _default_yunit)); repeat split.
Qed.

Lemma plain_sequence_resets_unit_witness :
  (2 <= List.length [0%Z; 1%Z; 3%Z])%nat /\
  exists s',
    yindex_set (Some (PySeq [0; 1; 3])) hertz_axis_regular = (inr tt, s') /\
    yunit s' = dimensionless /\
    _yindex s' = Some (mkIndex [0; 1; 3] dimensionless) /\
    fst (y0_get s') = inr (mkQuantity (nth 0 [0; 1; 3] 0) dimensionless).
Proof.
  assert (H : (2 <= List.length [0%Z; 1%Z; 3%Z])%nat) by (simpl; lia).
  split; [exact H|].
  exact (plain_sequence_resets_unit [0; 1; 3] hertz_axis_regular H).
Defined.

(** X20.  Setting an empty index raises [IndexError] at [index[0]] and
    changes nothing: origin, step and any cached index are as before. *)
Theorem empty_index_rejected :
  forall (arr : PyArr) (s : Slots),
    ivalue (Index_ arr) = [] ->
    exists msg, yindex_set (Some arr) s = (inl (IndexError msg), s).
Proof.
  intros arr s H. unfold yindex_set, index_nth.
  cbv beta iota zeta delta [bind lift]. rewrite H.
  eexists. reflexivity.
Qed.

Lemma empty_index_rejected_witness :
  ivalue (Index_ (PySeq [])) = [] /\
  exists msg,
    yindex_set (Some (PySeq [])) cached_axis = (inl (IndexError msg), cached_axis).
Proof.
  assert (H : ivalue (Index_ (PySeq [])) = []) by reflexivity.
  split; [exact H|].
  exact (empty_index_rejected (PySeq []) cached_axis H).
Defined.
